(** * AGI session core: preamble reader, command/response exchange, listener

    A shallow embedding of [agi.go] (package [agi], CyCoreSystems/agi):
    [NewWithEAGI] (the preamble reader), [Command] (the command/response
    exchange with its response grammar and hangup detection) and [Listen]
    (the accept loop), together with the parts of the Go standard library
    they call: [bufio.Scanner] with [bufio.ScanLines], [strings.TrimSpace],
    [strings.SplitN], [strings.HasPrefix], [strings.TrimPrefix],
    [strings.TrimSuffix], [strconv.Atoi] and the compiled [responseRegex].

    Go strings are byte sequences; they are modelled by [string], whose
    characters are the 256 byte values.  Go's [int] is taken to be 64 bits
    wide and is modelled by [Z] with the wrap-around written out.  The
    variables of a session are a [gmap] from names to values.  A function
    that reads is given the bytes its reader delivers; a writer is what it
    answers to the bytes written; the network of [Listen] is the answer of
    [net.Listen] and the answers of the successive [Accept] calls.

    The file [agi.go] holds the package twice.  The functions modelled at
    top level are those of its current text; the earlier text, which has no
    hangup test, stops at a result token that is not an integer and splits
    a preamble line at every colon, is modelled in [Module Earlier]. *)

From Stdlib Require Import ZArith Lia Ascii String List.
From stdpp Require Import gmap strings list.
From Equations Require Import Equations.

(** ** Bytes and strings *)

Definition code (c : ascii) : N := N_of_ascii c.

Definition byteIn (lo hi : N) (c : ascii) : bool :=
  ((lo <=? code c) && (code c <=? hi))%N.

Definition isDigit (c : ascii) : bool := byteIn 48 57 c.

Definition isUpper (c : ascii) : bool := byteIn 65 90 c.

Definition isLower (c : ascii) : bool := byteIn 97 122 c.

Definition digitVal (c : ascii) : Z := Z.of_N (code c) - 48.

Fixpoint strAll (p : ascii -> bool) (s : string) : bool :=
  match s with
  | EmptyString => true
  | String c s' => p c && strAll p s'
  end.

(** [s[n:]] for [n <= len(s)]. *)
Fixpoint strDrop (n : nat) (s : string) : string :=
  match n, s with
  | O, _ => s
  | S n', String _ s' => strDrop n' s'
  | S _, EmptyString => EmptyString
  end.

(** [strings.HasPrefix(s, prefix)]. *)
Definition HasPrefix (s prefix : string) : bool := String.prefix prefix s.

(** [strings.HasSuffix(s, suffix)]: the suffix is a prefix of the reversed
    string, read backwards. *)
Definition HasSuffix (s suffix : string) : bool :=
  String.prefix (String.rev suffix) (String.rev s).

(** [strings.TrimPrefix(s, prefix)]. *)
Definition TrimPrefix (s prefix : string) : string :=
  if HasPrefix s prefix then strDrop (String.length prefix) s else s.

(** [strings.TrimSuffix(s, suffix)]. *)
Definition TrimSuffix (s suffix : string) : string :=
  if HasSuffix s suffix
  then String.rev (strDrop (String.length suffix) (String.rev s))
  else s.

(** [strings.Join(elems, sep)]. *)
Fixpoint Join (elems : list string) (sep : string) : string :=
  match elems with
  | [] => ""
  | [e] => e
  | e :: rest => e +:+ sep +:+ Join rest sep
  end.

(** *** strings.TrimSpace

    [TrimSpace] removes every leading and trailing white-space rune, as
    [unicode.IsSpace] defines it.  A rune is removed exactly when the bytes
    at that end of the string are its UTF-8 encoding (an invalid sequence
    decodes to U+FFFD, which is not white space), so the function is
    modelled on the encodings:
    one byte    U+0009..U+000D, U+0020;
    two bytes   U+0085 (C2 85), U+00A0 (C2 A0);
    three bytes U+1680 (E1 9A 80), U+2000..U+200A (E2 80 80..8A),
                U+2028, U+2029 (E2 80 A8, A9), U+202F (E2 80 AF),
                U+205F (E2 81 9F), U+3000 (E3 80 80). *)

Definition asciiSpace (c : ascii) : bool :=
  byteIn 9 13 c || (code c =? 32)%N.

Definition space2 (c1 c2 : ascii) : bool :=
  (code c1 =? 194)%N && ((code c2 =? 133) || (code c2 =? 160))%N.

Definition space3 (c1 c2 c3 : ascii) : bool :=
  ((code c1 =? 225) && (code c2 =? 154) && (code c3 =? 128))%N
  || ((code c1 =? 226) && (code c2 =? 128)
      && (byteIn 128 138 c3 || byteIn 168 169 c3 || (code c3 =? 175)))%N
  || ((code c1 =? 226) && (code c2 =? 129) && (code c3 =? 159))%N
  || ((code c1 =? 227) && (code c2 =? 128) && (code c3 =? 128))%N.

(** Drop white-space runes from the front.  [sp2] and [sp3] recognise the
    two- and three-byte encodings in the order the bytes are met. *)
Fixpoint trimFront (sp2 : ascii -> ascii -> bool)
    (sp3 : ascii -> ascii -> ascii -> bool) (s : string) : string :=
  match s with
  | EmptyString => EmptyString
  | String c1 r1 =>
      if asciiSpace c1 then trimFront sp2 sp3 r1
      else
        match r1 with
        | EmptyString => s
        | String c2 r2 =>
            if sp2 c1 c2 then trimFront sp2 sp3 r2
            else
              match r2 with
              | EmptyString => s
              | String c3 r3 =>
                  if sp3 c1 c2 c3 then trimFront sp2 sp3 r3 else s
              end
        end
  end.

Definition TrimLeftSpace (s : string) : string := trimFront space2 space3 s.

(** From the end the bytes of an encoding are met last byte first. *)
Definition TrimRightSpace (s : string) : string :=
  String.rev
    (trimFront (fun c2 c1 => space2 c1 c2)
               (fun c3 c2 c1 => space3 c1 c2 c3) (String.rev s)).

Definition TrimSpace (s : string) : string := TrimRightSpace (TrimLeftSpace s).

(** *** strings.SplitN with a one-byte separator

    [genSplit(s, sep, 0, n)]: at most [n] pieces, cut at the first [n-1]
    occurrences of [sep]; [n] is first capped at [len(s)+1]. *)

(** [strings.Index(s, sep)] for a one-byte [sep]: the text before the first
    occurrence and the text after it. *)
Fixpoint cutAt (sep : ascii) (s : string) : option (string * string) :=
  match s with
  | EmptyString => None
  | String c s' =>
      if (c =? sep)%char then Some (EmptyString, s')
      else
        match cutAt sep s' with
        | Some (before, after) => Some (String c before, after)
        | None => None
        end
  end.

(** The loop of [genSplit]: [k] is the number of cuts still allowed. *)
Fixpoint splitLoop (k : nat) (sep : ascii) (s : string) : list string :=
  match k with
  | O => [s]
  | S k' =>
      match cutAt sep s with
      | Some (before, after) => before :: splitLoop k' sep after
      | None => [s]
      end
  end.

Definition SplitN (s : string) (sep : ascii) (n : nat) : list string :=
  match Nat.min n (S (String.length s)) with
  | O => []
  | S k => splitLoop k sep s
  end.

(** [strings.Split(s, sep)] is [genSplit(s, sep, 0, -1)]: a negative [n]
    becomes [Count(s, sep) + 1], so every occurrence is cut. *)
Definition Split (s : string) (sep : ascii) : list string :=
  splitLoop (String.length s) sep s.

(** ** Errors *)

Inductive NumErr : Type :=
| ErrSyntax
| ErrRange.

(** The values of Go's [error] interface that the package produces or
    passes on.  [ErrHangup] is the package variable [errors.New("hangup")];
    [Errorf] carries the formatted message of a [fmt.Errorf]; [Wrapped] is
    what [errors.Wrap] builds around a non-nil cause; [NumError] is
    [*strconv.NumError]; [IOError] stands for an error of the transport. *)
Inductive error : Type :=
| ErrHangup
| Errorf (msg : string)
| Wrapped (cause : error) (message : string)
| NumError (Func Num : string) (Err : NumErr)
| IOError (msg : string).

(** [errors.Wrap(err, message)]: nil for a nil [err]. *)
Definition Wrap (err : option error) (message : string) : option error :=
  match err with
  | None => None
  | Some e => Some (Wrapped e message)
  end.

(** ** strconv.Atoi *)

Definition maxUint64 : Z := 2 ^ 64 - 1.

Definition int64 (z : Z) : Z := (z + 2 ^ 63) mod 2 ^ 64 - 2 ^ 63.

(** The digit loop of the fast path of [Atoi]. *)
Fixpoint atoiDigits (s : string) (n : Z) : option Z :=
  match s with
  | EmptyString => Some n
  | String ch s' =>
      if isDigit ch then atoiDigits s' (n * 10 + digitVal ch) else None
  end.

(** The loop of [strconv.ParseUint(s, 10, 64)] over the bytes of [s]. *)
Fixpoint parseUintLoop (s : string) (n : Z) : Z * option NumErr :=
  match s with
  | EmptyString => (n, None)
  | String c s' =>
      if isDigit c then
        if (maxUint64 / 10 + 1 <=? n)%Z then (maxUint64, Some ErrRange)
        else
          let n10 := ((n * 10) mod 2 ^ 64)%Z in
          let n1 := ((n10 + digitVal c) mod 2 ^ 64)%Z in
          if ((n1 <? n10) || (maxUint64 <? n1))%Z
          then (maxUint64, Some ErrRange)
          else parseUintLoop s' n1
      else (0%Z, Some ErrSyntax)
  end.

Definition ParseUint (s : string) : Z * option NumErr :=
  match s with
  | EmptyString => (0%Z, Some ErrSyntax)
  | _ => parseUintLoop s 0
  end.

(** [strconv.ParseInt(s, 10, 0)]. *)
Definition ParseInt (s : string) : Z * option NumErr :=
  match s with
  | EmptyString => (0%Z, Some ErrSyntax)
  | String c r =>
      let neg := (c =? "-")%char in
      let body := if ((c =? "+") || (c =? "-"))%char then r else s in
      match ParseUint body with
      | (_, Some ErrSyntax) => (0%Z, Some ErrSyntax)
      | (un, _) =>
          let cutoff := (2 ^ 63)%Z in
          if negb neg && (cutoff <=? un)%Z then ((cutoff - 1)%Z, Some ErrRange)
          else if neg && (cutoff <? un)%Z then ((- cutoff)%Z, Some ErrRange)
          else
            let n := int64 un in
            (if neg then int64 (- n) else n, None)
      end
  end.

(** [strconv.Atoi(s)]: the value and the error (nil when [s] is a decimal
    integer in range). *)
Definition Atoi (s : string) : Z * option error :=
  let sLen := String.length s in
  if (0 <? sLen) && (sLen <? 19) then
    match s with
    | EmptyString => (0%Z, Some (NumError "Atoi" s ErrSyntax))
    | String c r =>
        let signed := ((c =? "-") || (c =? "+"))%char in
        let body := if signed then r else s in
        if signed && (String.length body <? 1)
        then (0%Z, Some (NumError "Atoi" s ErrSyntax))
        else
          match atoiDigits body 0 with
          | None => (0%Z, Some (NumError "Atoi" s ErrSyntax))
          | Some n => (if (c =? "-")%char then (- n)%Z else n, None)
          end
    end
  else
    let '(i64, err) := ParseInt s in
    (i64, option_map (NumError "Atoi" s) err).

(** The line terminator, byte 10. *)
Definition newline : string := String "010" EmptyString.

(** ** bufio.Scanner with bufio.ScanLines

    A scanner is created over the session's reader by every call that reads
    ([NewWithEAGI], [Command]).  The reader is modelled by the bytes it
    delivers to that scanner before it reports end-of-file or a read error
    (the two are the same to the callers, which never look at [s.Err()]);
    it reports either after its last bytes, as files and connections do.

    The scanner's buffer grows to [MaxScanTokenSize] bytes and no further: a
    line that does not fit it together with its newline (or, for a last
    line without one, does not leave room to read on to the end of the
    input) stops the scanner with [ErrTooLong]. *)

Definition MaxScanTokenSize : N := 65536.

(** [dropCR]: one trailing carriage return is dropped. *)
Fixpoint dropCR (data : string) : string :=
  match data with
  | EmptyString => EmptyString
  | String c EmptyString => if (c =? "013")%char then EmptyString else data
  | String c rest => String c (dropCR rest)
  end.

(** One call of [s.Scan()] on the unread input [data]: [None] when it
    returns false (end of input, or a line that does not fit the buffer,
    [ErrTooLong]); otherwise [s.Text()] and the input left unread. *)
Definition Scan (data : string) : option (string * string) :=
  match data with
  | EmptyString => None
  | _ =>
      let '(line, rest) :=
        match cutAt "010" data with
        | Some (line, rest) => (line, rest)
        | None => (data, EmptyString)
        end in
      if (N.of_nat (String.length line) <? MaxScanTokenSize)%N
      then Some (dropCR line, rest)
      else None
  end.

(** ** The response grammar

    [responseRegex] is compiled from a pattern of three groups, written
    here with blanks between its parts:

      ^  ([\d]{3})  \s  result=  (\-?[[:alnum:]]* )  (\s.* )?  $        *)

Definition isAlnum (c : ascii) : bool := isDigit c || isUpper c || isLower c.

(** [\s] of Go's regexp: tab, newline, form feed, carriage return, space. *)
Definition isReSpace (c : ascii) : bool :=
  ((code c =? 9) || (code c =? 10) || (code c =? 12) || (code c =? 13)
   || (code c =? 32))%N.

(** [.]: any byte but the newline. *)
Definition isDot (c : ascii) : bool := negb (c =? "010")%char.

(** The longest prefix of [[:alnum:]] bytes, and what follows it. *)
Fixpoint spanAlnum (s : string) : string * string :=
  match s with
  | EmptyString => (EmptyString, EmptyString)
  | String c s' =>
      if isAlnum c
      then let '(tok, rest) := spanAlnum s' in (String c tok, rest)
      else (EmptyString, s)
  end.

(** [\-?]: a leading minus sign, when there is one, and what follows. *)
Definition cutSign (s : string) : string * string :=
  match s with
  | EmptyString => (EmptyString, EmptyString)
  | String c r => if (c =? "-")%char then ("-", r) else (EmptyString, s)
  end.

(** [responseRegex.FindStringSubmatch(raw)]: [None] for nil, otherwise the
    three groups [pieces[1]], [pieces[2]], [pieces[3]] (a group that took no
    part in the match is the empty string).  Every quantifier is greedy and
    each is followed by a byte it cannot take, so the match, when there is
    one, is the one read off from left to right. *)
Definition FindStringSubmatch (raw : string) : option (string * string * string) :=
  match raw with
  | String d1 (String d2 (String d3 (String sp rest))) =>
      if isDigit d1 && isDigit d2 && isDigit d3 && isReSpace sp
         && HasPrefix rest "result="
      then
        let '(sign, digits) := cutSign (strDrop 7 rest) in
        let '(tok, tail) := spanAlnum digits in
        let status := String d1 (String d2 (String d3 EmptyString)) in
        match tail with
        | EmptyString => Some (status, sign +:+ tok, EmptyString)
        | String c t =>
            if isReSpace c && strAll isDot t
            then Some (status, sign +:+ tok, tail)
            else None
        end
      else None
  | _ => None
  end.

(** ** Sessions and responses *)

(** [Response]; [Error] is Go's [error] interface, nil being [None]. *)
Record Response : Type := mkResponse {
  Error : option error;
  Status : Z;
  Result : Z;
  ResultString : string;
  Value : string;
}.

(** [&Response{}]. *)
Definition emptyResponse : Response :=
  {| Error := None; Status := 0; Result := 0;
     ResultString := EmptyString; Value := EmptyString |}.

Definition withError (e : option error) (r : Response) : Response :=
  {| Error := e; Status := Status r; Result := Result r;
     ResultString := ResultString r; Value := Value r |}.

Definition withStatus (n : Z) (r : Response) : Response :=
  {| Error := Error r; Status := n; Result := Result r;
     ResultString := ResultString r; Value := Value r |}.

Definition withResult (n : Z) (r : Response) : Response :=
  {| Error := Error r; Status := Status r; Result := n;
     ResultString := ResultString r; Value := Value r |}.

Definition withResultString (s : string) (r : Response) : Response :=
  {| Error := Error r; Status := Status r; Result := Result r;
     ResultString := s; Value := Value r |}.

Definition withValue (s : string) (r : Response) : Response :=
  {| Error := Error r; Status := Status r; Result := Result r;
     ResultString := ResultString r; Value := s |}.

(** An [io.Writer]: what [Write] answers for the bytes it is given, nil
    ([None]) on success. *)
Definition Writer : Type := string -> option error.

(** A [net.Conn]: the bytes it delivers to the scanner that reads the
    preamble, and its writing side. *)
Record Conn : Type := mkConn {
  connInput : string;
  connWrite : Writer;
}.

(** [AGI], the session.  The reader [r] is not a field of the model: each
    operation that scans it is given the bytes the reader then delivers.
    The mutex and the logger are left out: the first only orders callers,
    the second only observes the finished response. *)
Record AGI : Type := mkAGI {
  Variables : gmap string string;
  eagi : option string;
  w : Writer;
  conn : option Conn;
}.

(** The body of the preamble loop for one non-empty line:
    [terms := strings.SplitN(s.Text(), ":", 2)] and the store when
    [len(terms) == 2]. *)
Definition storeLine (text : string) (vars : gmap string string)
    : gmap string string :=
  match SplitN text ":" 2 with
  | [key; value] => <[TrimSpace key := TrimSpace value]> vars
  | _ => vars
  end.

(** Each successful [Scan] leaves strictly less input, so a loop over
    [s.Scan()] ends. *)
Lemma cutAt_length (sep : ascii) (s before after : string) :
  cutAt sep s = Some (before, after) ->
  String.length s = S (String.length before + String.length after).
Proof.
  revert before after.
  induction s as [|c s IH]; intros before after; simpl; [discriminate|].
  destruct (c =? sep)%char.
  - intros [= <- <-]. reflexivity.
  - destruct (cutAt sep s) as [[b a]|]; [|discriminate].
    intros [= <- <-]. simpl. rewrite (IH b a eq_refl). reflexivity.
Qed.

Lemma Scan_shorter (data text rest : string) :
  Scan data = Some (text, rest) -> String.length rest < String.length data.
Proof.
  unfold Scan. destruct data as [|c data]; [discriminate|].
  destruct (cutAt "010" (String c data)) as [[line after]|] eqn:Hcut.
  - apply cutAt_length in Hcut.
    destruct (_ <? _)%N; [|discriminate].
    intros [= _ <-]. lia.
  - destruct (_ <? _)%N; [|discriminate].
    intros [= _ <-]. simpl. lia.
Qed.

(** A value together with the equation that it is the value inspected. *)
Definition inspect {A : Type} (a : A) : {b : A | a = b} := exist _ a eq_refl.

(** The preamble loop of [NewWithEAGI]:
    [for s.Scan() { if s.Text() == "" { break }; ... }].
    It returns the variables and the input the scanner has not consumed. *)
Equations? scanVariables (data : string) (vars : gmap string string)
  : gmap string string * string by wf (String.length data) lt :=
  scanVariables data vars with inspect (Scan data) := {
    | exist _ None _ => (vars, data);
    | exist _ (Some (EmptyString, rest)) _ => (vars, rest);
    | exist _ (Some (text, rest)) Hscan =>
        scanVariables rest (storeLine text vars) }.
Proof.
  exact (Scan_shorter _ _ _ Hscan).
Qed.

(** [NewWithEAGI(r, w, eagi)]; [rd] is what [r] delivers to the scanner. *)
Definition NewWithEAGI (rd : string) (wr : Writer) (ea : option string) : AGI :=
  {| Variables := fst (scanVariables rd ∅); eagi := ea; w := wr; conn := None |}.

(** [New(r, w)]. *)
Definition New (rd : string) (wr : Writer) : AGI := NewWithEAGI rd wr None.

(** [NewConn(conn)]. *)
Definition NewConn (c : Conn) : AGI :=
  let a := New (connInput c) (connWrite c) in
  {| Variables := Variables a; eagi := eagi a; w := w a; conn := Some c |}.

(** The statement after the loop of [Command]:
    [if resp.Status != 200 { resp.Error = fmt.Errorf("Non-200 status code") }]. *)
Definition checkStatus (resp : Response) : Response :=
  if (Status resp =? 200)%Z then resp
  else withError (Some (Errorf "Non-200 status code")) resp.

(** The body of the loop of [Command] for a non-empty line [raw]. *)
Definition parseResponse (raw : string) (resp : Response) : Response :=
  if HasPrefix raw "HANGUP" then withError (Some ErrHangup) resp
  else
    match FindStringSubmatch raw with
    | None => withError (Some (Errorf ("failed to parse result: " +:+ raw))) resp
    | Some (p1, p2, p3) =>
        let '(status, err) := Atoi p1 in
        let resp := withStatus status resp in
        match err with
        | Some _ => withError (Wrap err "failed to get status code") resp
        | None =>
            let resp := withResultString p2 resp in
            let '(result, err) := Atoi p2 in
            let resp := withResult result resp in
            let resp :=
              match err with
              | Some _ =>
                  withError
                    (Wrap err "failed to parse result-code as an integer") resp
              | None => resp
              end in
            let wrappedVal := TrimSpace p3 in
            let resp :=
              withValue (TrimSuffix (TrimPrefix wrappedVal "(") ")") resp in
            checkStatus resp
        end
    end.

(** [a.Command(cmd...)]; [rd] is what [a.r] delivers to the scanner the
    call creates.  The loop body always leaves the loop, so only the first
    line the scanner yields is looked at. *)
Definition Command (a : AGI) (rd : string) (cmd : list string) : Response :=
  let resp := emptyResponse in
  let cmdString := Join cmd " " in
  match w a (cmdString +:+ newline) with
  | Some err => withError (Wrap (Some err) "failed to send command") resp
  | None =>
      match Scan rd with
      | None => checkStatus resp
      | Some (EmptyString, _) => checkStatus resp
      | Some (raw, _) => parseResponse raw resp
      end
  end.

(** ** The listener *)

(** What one call of [l.Accept()] returns. *)
Inductive AcceptResult : Type :=
| Accepted (c : Conn)
| AcceptFailed (err : error).

(** A [net.Listener]: the results of its successive [Accept] calls; when
    they are used up [Accept] blocks. *)
Record Listener : Type := mkListener {
  accepts : list AcceptResult;
}.

(** What [net.Listen("tcp", addr)] returns. *)
Inductive BindResult : Type :=
| Bound (l : Listener)
| BindFailed (err : error).

(** A run of [Listen]: the addresses [net.Listen] was called with, the
    sessions handed to [go handler(...)], and what [Listen] returned
    ([None] while the loop is blocked in [Accept]; otherwise the returned
    [error], nil being [Some None]). *)
Record ListenRun : Type := mkListenRun {
  binds : list string;
  handled : list AGI;
  returned : option (option error);
}.

(** The loop [for { conn, err := l.Accept(); ... }]. *)
Fixpoint acceptLoop (results : list AcceptResult)
    : list AGI * option (option error) :=
  match results with
  | [] => ([], None)
  | AcceptFailed err :: _ =>
      ([], Some (Wrap (Some err) "failed to accept TCP connection"))
  | Accepted c :: rest =>
      let '(sessions, ret) := acceptLoop rest in
      (NewConn c :: sessions, ret)
  end.

(** [if addr == "" { addr = "localhost:4573" }]. *)
Definition listenAddr (addr : string) : string :=
  match addr with
  | EmptyString => "localhost:4573"
  | _ => addr
  end.

(** [Listen(addr, handler)] over the network [netListen], which answers
    [net.Listen("tcp", addr)]. *)
Definition Listen (netListen : string -> BindResult) (addr : string)
    : ListenRun :=
  let addr := listenAddr addr in
  match netListen addr with
  | BindFailed err =>
      {| binds := [addr]; handled := [];
         returned := Some (Wrap (Some err) "failed to bind server") |}
  | Bound l =>
      let '(sessions, ret) := acceptLoop (accepts l) in
      {| binds := [addr]; handled := sessions; returned := ret |}
  end.

(** ** The earlier revision

    The file also carries an earlier revision of the package.  It differs
    where the properties below touch it: the preamble loop splits a line at
    every colon, and [Command] has no hangup test and returns at once when
    the result token is not an integer. *)
Module Earlier.

(** [terms := strings.Split(s.Text(), ":")] and the store when
    [len(terms) == 2]. *)
Definition storeLine (text : string) (vars : gmap string string)
    : gmap string string :=
  match Split text ":" with
  | [key; value] => <[TrimSpace key := TrimSpace value]> vars
  | _ => vars
  end.

Equations? scanVariables (data : string) (vars : gmap string string)
  : gmap string string * string by wf (String.length data) lt :=
  scanVariables data vars with inspect (Scan data) := {
    | exist _ None _ => (vars, data);
    | exist _ (Some (EmptyString, rest)) _ => (vars, rest);
    | exist _ (Some (text, rest)) Hscan =>
        scanVariables rest (storeLine text vars) }.
Proof.
  exact (Scan_shorter _ _ _ Hscan).
Qed.

Definition NewWithEAGI (rd : string) (wr : Writer) (ea : option string) : AGI :=
  {| Variables := fst (scanVariables rd ∅); eagi := ea; w := wr; conn := None |}.

Definition parseResponse (raw : string) (resp : Response) : Response :=
  match FindStringSubmatch raw with
  | None => withError (Some (Errorf ("failed to parse result: " +:+ raw))) resp
  | Some (p1, p2, p3) =>
      let '(status, err) := Atoi p1 in
      let resp := withStatus status resp in
      match err with
      | Some _ => withError (Wrap err "failed to get status code") resp
      | None =>
          let resp := withResultString p2 resp in
          let '(result, err) := Atoi p2 in
          let resp := withResult result resp in
          match err with
          | Some _ =>
              withError
                (Wrap err "failed to parse status code as an integer") resp
          | None =>
              let wrappedVal := TrimSpace p3 in
              let resp :=
                withValue (TrimSuffix (TrimPrefix wrappedVal "(") ")") resp in
              checkStatus resp
          end
      end
  end.

Definition Command (a : AGI) (rd : string) (cmd : list string) : Response :=
  let resp := emptyResponse in
  let cmdString := Join cmd " " +:+ newline in
  match w a cmdString with
  | Some err => withError (Wrap (Some err) "failed to send command") resp
  | None =>
      match Scan rd with
      | None => checkStatus resp
      | Some (EmptyString, _) => checkStatus resp
      | Some (raw, _) => parseResponse raw resp
      end
  end.

End Earlier.

(** ** The response grammar and the preamble, stated directly *)

(** [-?[[:alnum:]]*]: an optional minus sign, then alphanumerics. *)
Definition isResultToken (s : string) : bool :=
  match s with
  | EmptyString => true
  | String c r => if (c =? "-")%char then strAll isAlnum r else strAll isAlnum s
  end.

(** The optional trailing segment: a white-space byte and the rest of the
    line. *)
Definition isTrailing (s : string) : bool :=
  match s with
  | EmptyString => true
  | String c t => isReSpace c && strAll isDot t
  end.

(** [raw] is a response line: three digits [p1], a white-space byte, the
    literal "result=", the result token [p2], the trailing segment [p3]. *)
Definition ResponseLine (raw p1 p2 p3 : string) : Prop :=
  exists d1 d2 d3 sp : ascii,
    raw = String d1 (String d2 (String d3 (String sp ("result=" +:+ p2 +:+ p3))))
    /\ p1 = String d1 (String d2 (String d3 EmptyString))
    /\ isDigit d1 = true /\ isDigit d2 = true /\ isDigit d3 = true
    /\ isReSpace sp = true /\ isResultToken p2 = true /\ isTrailing p3 = true.

(** The lines a scanner yields, one [Scan] after the other, until [Scan]
    returns false. *)
Equations? scanLines (data : string) : list string
  by wf (String.length data) lt :=
  scanLines data with inspect (Scan data) := {
    | exist _ None _ => [];
    | exist _ (Some (text, rest)) Hscan => text :: scanLines rest }.
Proof.
  exact (Scan_shorter _ _ _ Hscan).
Qed.

(** The lines up to the first empty one. *)
Fixpoint linesBeforeBlank (lines : list string) : list string :=
  match lines with
  | [] => []
  | EmptyString :: _ => []
  | line :: rest => line :: linesBeforeBlank rest
  end.

(** The next byte, if there is one, is not alphanumeric. *)
Definition notAlnumHead (s : string) : Prop :=
  match s with
  | EmptyString => True
  | String c _ => isAlnum c = false
  end.

(** The text holds no colon. *)
Definition noColon (s : string) : bool :=
  strAll (fun c => negb (c =? ":")%char) s.

(** The response the loop body of [Command] builds from a response line
    with the parts [p1], [p2], [p3], before the status test that follows
    the loop. *)
Definition parsedResponse (p1 p2 p3 : string) : Response :=
  {| Error := Wrap (snd (Atoi p2)) "failed to parse result-code as an integer";
     Status := fst (Atoi p1);
     Result := fst (Atoi p2);
     ResultString := p2;
     Value := TrimSuffix (TrimPrefix (TrimSpace p3) "(") ")" |}.

(** A session for the examples: no preamble, a writer that never fails. *)
Definition exampleSession : AGI := New EmptyString (fun _ => None).

(** * Properties *)

#[local] Arguments String.append !_ _ / : simpl nomatch.

(** ** Strings *)

Lemma append_assoc (s t u : string) : (s +:+ t) +:+ u = s +:+ (t +:+ u).
Proof. induction s as [|c s IH]; simpl; [reflexivity|]. now rewrite IH. Qed.

Lemma append_empty_r (s : string) : s +:+ "" = s.
Proof. induction s as [|c s IH]; simpl; [reflexivity|]. now rewrite IH. Qed.

Lemma rev_app_append (s acc : string) :
  String.rev_app s acc = String.rev s +:+ acc.
Proof.
  unfold String.rev. revert acc.
  induction s as [|c s IH]; intros acc; simpl; [reflexivity|].
  rewrite (IH (String c acc)), (IH (String c "")), append_assoc.
  reflexivity.
Qed.

Lemma rev_String (c : ascii) (s : string) :
  String.rev (String c s) = String.rev s +:+ String c "".
Proof. unfold String.rev at 1. simpl. apply rev_app_append. Qed.

Lemma rev_append (s t : string) :
  String.rev (s +:+ t) = String.rev t +:+ String.rev s.
Proof.
  induction s as [|c s IH]; simpl.
  - now rewrite append_empty_r.
  - now rewrite !rev_String, IH, append_assoc.
Qed.

Lemma rev_involutive (s : string) : String.rev (String.rev s) = s.
Proof.
  induction s as [|c s IH]; [reflexivity|].
  now rewrite rev_String, rev_append, IH.
Qed.

Lemma length_append (s t : string) :
  String.length (s +:+ t) = String.length s + String.length t.
Proof. induction s as [|c s IH]; simpl; [reflexivity|]. now rewrite IH. Qed.

Lemma strAll_append (p : ascii -> bool) (s t : string) :
  strAll p (s +:+ t) = strAll p s && strAll p t.
Proof.
  induction s as [|c s IH]; simpl; [reflexivity|].
  now rewrite IH, andb_assoc.
Qed.

Lemma HasPrefix_append (p s : string) : HasPrefix (p +:+ s) p = true.
Proof.
  unfold HasPrefix. induction p as [|c p IH]; simpl.
  - now destruct s.
  - destruct (ascii_dec c c); [exact IH|congruence].
Qed.

Lemma HasPrefix_split (s p : string) :
  HasPrefix s p = true -> s = p +:+ strDrop (String.length p) s.
Proof.
  unfold HasPrefix. revert s.
  induction p as [|c p IH]; intros s; [reflexivity|].
  destruct s as [|d s]; simpl; [discriminate|].
  destruct (ascii_dec c d) as [->|]; [|discriminate].
  intros H. now rewrite <- (IH s H).
Qed.

Lemma strDrop_append (p s : string) : strDrop (String.length p) (p +:+ s) = s.
Proof. induction p as [|c p IH]; simpl; [now destruct s|exact IH]. Qed.

Lemma TrimPrefix_append (p s : string) : TrimPrefix (p +:+ s) p = s.
Proof. unfold TrimPrefix. now rewrite HasPrefix_append, strDrop_append. Qed.

Lemma TrimSuffix_append (s p : string) : TrimSuffix (s +:+ p) p = s.
Proof.
  unfold TrimSuffix, HasSuffix.
  rewrite rev_append.
  fold (HasPrefix (String.rev p +:+ String.rev s) (String.rev p)).
  rewrite HasPrefix_append.
  assert (Hlen : String.length p = String.length (String.rev p)).
  { clear. induction p as [|c p IH]; [reflexivity|].
    rewrite rev_String, length_append. simpl. lia. }
  now rewrite Hlen, strDrop_append, rev_involutive.
Qed.



(** ** Bytes *)

Lemma code_inj (c : ascii) (n : N) : code c = n -> c = ascii_of_N n.
Proof. intros <-. unfold code. now rewrite ascii_N_embedding. Qed.

Lemma byteIn_bounds (lo hi : N) (c : ascii) :
  byteIn lo hi c = true <-> (lo <= code c <= hi)%N.
Proof. unfold byteIn. rewrite andb_true_iff, !N.leb_le. tauto. Qed.

Lemma eqb_code (c d : ascii) : (c =? d)%char = (code c =? code d)%N.
Proof.
  destruct (Ascii.eqb_spec c d) as [->|Hne].
  - now rewrite N.eqb_refl.
  - symmetry. apply N.eqb_neq. intros Heq. apply Hne.
    rewrite <- (ascii_N_embedding c), <- (ascii_N_embedding d).
    unfold code in Heq. now rewrite Heq.
Qed.

Lemma isDigit_not_sign (c : ascii) :
  isDigit c = true -> (c =? "-")%char = false /\ (c =? "+")%char = false.
Proof.
  unfold isDigit. rewrite byteIn_bounds, !eqb_code. intros H.
  split; apply N.eqb_neq; change (code "-") with 45%N;
    change (code "+") with 43%N; lia.
Qed.

Lemma isAlnum_not_minus (c : ascii) : isAlnum c = true -> (c =? "-")%char = false.
Proof.
  unfold isAlnum, isDigit, isUpper, isLower.
  rewrite !orb_true_iff, !byteIn_bounds, eqb_code. intros H.
  apply N.eqb_neq. change (code "-") with 45%N. lia.
Qed.

Lemma isReSpace_cases (c : ascii) :
  isReSpace c = true <->
  (code c = 9 \/ code c = 10 \/ code c = 12 \/ code c = 13 \/ code c = 32)%N.
Proof. unfold isReSpace. rewrite !orb_true_iff, !N.eqb_eq. tauto. Qed.

Lemma isReSpace_not_alnum (c : ascii) : isReSpace c = true -> isAlnum c = false.
Proof.
  rewrite isReSpace_cases. intros H.
  unfold isAlnum, isDigit, isUpper, isLower.
  rewrite !orb_false_iff. repeat split;
    (apply not_true_is_false; rewrite byteIn_bounds; lia).
Qed.

Lemma isReSpace_not_minus (c : ascii) : isReSpace c = true -> (c =? "-")%char = false.
Proof.
  rewrite isReSpace_cases, eqb_code. intros H.
  apply N.eqb_neq. change (code "-") with 45%N. lia.
Qed.


(** ** Trimming *)

Lemma trimFront_stop (sp2 : ascii -> ascii -> bool)
    (sp3 : ascii -> ascii -> ascii -> bool) (c : ascii) (s : string) :
  asciiSpace c = false ->
  (forall c2, sp2 c c2 = false) ->
  (forall c2 c3, sp3 c c2 c3 = false) ->
  trimFront sp2 sp3 (String c s) = String c s.
Proof.
  intros H1 H2 H3. simpl. rewrite H1.
  destruct s as [|c2 [|c3 s]]; [reflexivity| |]; rewrite H2; [reflexivity|].
  now rewrite H3.
Qed.

Lemma TrimSpace_skip (c : ascii) (s : string) :
  asciiSpace c = true -> TrimSpace (String c s) = TrimSpace s.
Proof. intros H. unfold TrimSpace, TrimLeftSpace. simpl. now rewrite H. Qed.

(** A parenthesised text has no white space to trim. *)
Lemma TrimSpace_parens (V : string) :
  TrimSpace ("(" +:+ V +:+ ")") = "(" +:+ V +:+ ")".
Proof.
  unfold TrimSpace, TrimLeftSpace, TrimRightSpace.
  change ("(" +:+ V +:+ ")") with (String "(" (V +:+ ")")).
  rewrite trimFront_stop.
  - rewrite rev_String, rev_append.
    change (String.rev ")") with (String ")" "").
    rewrite append_assoc.
    change (")" +:+ String.rev V +:+ "(") with (String ")" (String.rev V +:+ "(")).
    rewrite trimFront_stop.
    + change (String ")" (String.rev V +:+ "(")) with (")" +:+ (String.rev V +:+ "(")).
      rewrite rev_append, rev_append, rev_involutive. reflexivity.
    + reflexivity.
    + intros c2. unfold space2. simpl. now rewrite andb_false_r.
    + intros c2 c3. unfold space3, byteIn. simpl.
      now rewrite !andb_false_r.
  - reflexivity.
  - intros c2. reflexivity.
  - intros c2 c3. reflexivity.
Qed.

(** A printable ASCII byte is no white space and no part of the encoding of
    a white-space rune. *)
Lemma printable_not_space (c : ascii) :
  byteIn 33 126 c = true ->
  asciiSpace c = false
  /\ (forall x, space2 c x = false) /\ (forall x, space2 x c = false)
  /\ (forall x y, space3 c x y = false) /\ (forall x y, space3 x y c = false).
Proof.
  intros H. apply byteIn_bounds in H.
  assert (Hk : forall k : N, (k < 33 \/ 126 < k)%N -> (code c =? k)%N = false)
    by (intros k Hk; apply N.eqb_neq; lia).
  assert (Hb : forall lo hi : N, (hi < 33 \/ 126 < lo)%N -> byteIn lo hi c = false).
  { intros lo hi Hlh. apply not_true_is_false. rewrite byteIn_bounds. lia. }
  unfold asciiSpace, space2, space3.
  repeat split; intros;
    rewrite ?Hk, ?Hb by lia; rewrite ?andb_false_r; reflexivity.
Qed.

Lemma trimFront_spaces (sp2 : ascii -> ascii -> bool)
    (sp3 : ascii -> ascii -> ascii -> bool) (ws s : string) :
  strAll asciiSpace ws = true ->
  trimFront sp2 sp3 (ws +:+ s) = trimFront sp2 sp3 s.
Proof.
  induction ws as [|c ws IH]; [reflexivity|].
  cbn [strAll]. rewrite andb_true_iff. intros [Hc Hws].
  cbn [String.append trimFront]. rewrite Hc. exact (IH Hws).
Qed.

Lemma strAll_rev (p : ascii -> bool) (s : string) :
  strAll p (String.rev s) = strAll p s.
Proof.
  induction s as [|c s IH]; [reflexivity|].
  rewrite rev_String, strAll_append, IH. cbn [strAll].
  now rewrite andb_true_r, andb_comm.
Qed.

(** [TrimSpace] removes the white space around a text that begins and ends
    with a printable byte, and nothing else. *)
Lemma TrimSpace_padded (ws1 ws2 : string) (c1 c2 : ascii) (mid : string) :
  strAll asciiSpace ws1 = true -> strAll asciiSpace ws2 = true ->
  byteIn 33 126 c1 = true -> byteIn 33 126 c2 = true ->
  TrimSpace (ws1 +:+ String c1 (mid +:+ String c2 EmptyString) +:+ ws2)
  = String c1 (mid +:+ String c2 EmptyString).
Proof.
  intros Hws1 Hws2 Hc1 Hc2.
  destruct (printable_not_space c1 Hc1) as (Ha1 & Hf2 & _ & Hf3 & _).
  destruct (printable_not_space c2 Hc2) as (Ha2 & _ & Hb2 & _ & Hb3).
  unfold TrimSpace, TrimLeftSpace, TrimRightSpace.
  rewrite (trimFront_spaces _ _ ws1 _ Hws1).
  cbn [String.append]. rewrite (trimFront_stop _ _ c1 _ Ha1 Hf2 Hf3).
  change (String c1 ((mid +:+ String c2 EmptyString) +:+ ws2))
    with ((String c1 (mid +:+ String c2 EmptyString)) +:+ ws2).
  rewrite rev_append, trimFront_spaces by now rewrite strAll_rev.
  change (String c1 (mid +:+ String c2 EmptyString))
    with (String c1 mid +:+ String c2 EmptyString) at 1.
  rewrite rev_append. change (String.rev (String c2 EmptyString)) with (String c2 EmptyString).
  cbn [String.append].
  rewrite (trimFront_stop _ _ c2 _ Ha2); [|intros x; apply Hb2|intros x y; apply Hb3].
  change (String c2 (String.rev (String c1 mid)))
    with (String c2 EmptyString +:+ String.rev (String c1 mid)).
  now rewrite rev_append, rev_involutive.
Qed.

(** ** The scanner *)

Lemma cutAt_split (sep : ascii) (s before after : string) :
  cutAt sep s = Some (before, after) ->
  s = before +:+ String sep after
  /\ strAll (fun c => negb (c =? sep)%char) before = true.
Proof.
  revert before after.
  induction s as [|c s IH]; intros before after; simpl; [discriminate|].
  destruct (Ascii.eqb_spec c sep) as [->|Hne].
  - intros [= <- <-]. split; reflexivity.
  - destruct (cutAt sep s) as [[b a]|]; [|discriminate].
    intros [= <- <-]. destruct (IH b a eq_refl) as [-> Hall].
    split; [reflexivity|]. simpl. rewrite Hall.
    now destruct (Ascii.eqb_spec c sep).
Qed.

Lemma cutAt_none (sep : ascii) (s : string) :
  cutAt sep s = None -> strAll (fun c => negb (c =? sep)%char) s = true.
Proof.
  induction s as [|c s IH]; simpl; [reflexivity|].
  destruct (c =? sep)%char; [discriminate|].
  destruct (cutAt sep s) as [[b a]|]; [discriminate|].
  intros _. now rewrite IH.
Qed.

Lemma cutAt_append (sep : ascii) (before after : string) :
  strAll (fun c => negb (c =? sep)%char) before = true ->
  cutAt sep (before +:+ String sep after) = Some (before, after).
Proof.
  induction before as [|c b IH]; simpl.
  - now rewrite Ascii.eqb_refl.
  - destruct (c =? sep)%char; [discriminate|]. simpl.
    intros H. now rewrite (IH H).
Qed.

Lemma dropCR_strAll (p : ascii -> bool) (s : string) :
  strAll p s = true -> strAll p (dropCR s) = true.
Proof.
  induction s as [|c s IH]; [reflexivity|].
  simpl. rewrite andb_true_iff. intros [Hc Hs].
  destruct s as [|d s].
  - destruct (c =? "013")%char; simpl; [reflexivity|now rewrite Hc].
  - change (dropCR (String c (String d s)))
      with (String c (dropCR (String d s))).
    cbn [strAll]. rewrite Hc. exact (IH Hs).
Qed.

(** What a successful [Scan] says about the input: the line is cut at the
    first newline, or is all of a non-empty input that holds none; it fits
    the buffer; a trailing carriage return is dropped. *)
Lemma Scan_some (data text rest : string) :
  Scan data = Some (text, rest) ->
  exists line : string,
    text = dropCR line
    /\ (N.of_nat (String.length line) < MaxScanTokenSize)%N
    /\ strAll isDot line = true
    /\ data <> EmptyString
    /\ (data = line +:+ String "010" rest
        \/ (data = line /\ rest = EmptyString)).
Proof.
  unfold Scan. destruct data as [|c data]; [discriminate|].
  set (d := String c data).
  destruct (cutAt "010" d) as [[line after]|] eqn:Hcut.
  - apply cutAt_split in Hcut as [Hd Hall].
    destruct (_ <? _)%N eqn:Hlen; [|discriminate].
    intros [= <- <-]. exists line. apply N.ltb_lt in Hlen.
    repeat split; [exact Hlen|exact Hall|discriminate|now left].
  - apply cutAt_none in Hcut.
    destruct (_ <? _)%N eqn:Hlen; [|discriminate].
    intros [= <- <-]. exists d. apply N.ltb_lt in Hlen.
    repeat split; [exact Hlen|exact Hcut|discriminate|now right].
Qed.

(** A line the scanner yields holds no newline. *)
Lemma Scan_no_newline (data text rest : string) :
  Scan data = Some (text, rest) -> strAll isDot text = true.
Proof.
  intros H. apply Scan_some in H as (line & -> & _ & Hall & _).
  now apply dropCR_strAll.
Qed.

(** ** The response grammar *)

Lemma spanAlnum_append (tok tail : string) :
  strAll isAlnum tok = true -> notAlnumHead tail ->
  spanAlnum (tok +:+ tail) = (tok, tail).
Proof.
  intros Htok Htail. induction tok as [|c tok IH]; simpl in *.
  - destruct tail as [|c t]; [reflexivity|]. simpl in *. now rewrite Htail.
  - apply andb_true_iff in Htok as [Hc Htok]. now rewrite Hc, (IH Htok).
Qed.

Lemma spanAlnum_split (s tok tail : string) :
  spanAlnum s = (tok, tail) ->
  s = tok +:+ tail /\ strAll isAlnum tok = true /\ notAlnumHead tail.
Proof.
  revert tok tail. induction s as [|c s IH]; intros tok tail; simpl.
  - intros [= <- <-]. repeat split.
  - destruct (isAlnum c) eqn:Hc.
    + destruct (spanAlnum s) as [tok' tail'].
      intros [= <- <-]. destruct (IH tok' tail' eq_refl) as (-> & Htok & Htail).
      repeat split; [|exact Htail]. simpl. now rewrite Hc.
    + intros [= <- <-]. repeat split. exact Hc.
Qed.

Lemma isTrailing_notAlnumHead (s : string) : isTrailing s = true -> notAlnumHead s.
Proof.
  destruct s as [|c t]; simpl; [trivial|].
  rewrite andb_true_iff. intros [Hc _]. now apply isReSpace_not_alnum.
Qed.

Lemma cutSign_token (p2 p3 : string) :
  isResultToken p2 = true -> isTrailing p3 = true ->
  exists sign tok : string,
    cutSign (p2 +:+ p3) = (sign, tok +:+ p3)
    /\ p2 = sign +:+ tok /\ strAll isAlnum tok = true.
Proof.
  intros H2 H3. destruct p2 as [|c r].
  - exists EmptyString, EmptyString. simpl.
    destruct p3 as [|c t]; [now repeat split|].
    simpl in H3. apply andb_true_iff in H3 as [Hc _].
    unfold cutSign. now rewrite (isReSpace_not_minus c Hc).
  - simpl in H2. unfold cutSign. simpl.
    destruct (Ascii.eqb_spec c "-") as [->|Hne].
    + exists "-", r. now repeat split.
    + exists EmptyString, (String c r). now repeat split.
Qed.

Lemma cutSign_split (s sign rest : string) :
  cutSign s = (sign, rest) ->
  s = sign +:+ rest /\ (sign = "-" \/ sign = EmptyString).
Proof.
  destruct s as [|c r]; simpl.
  - intros [= <- <-]. split; [reflexivity|now right].
  - destruct (Ascii.eqb_spec c "-") as [->|Hne].
    + intros [= <- <-]. split; [reflexivity|now left].
    + intros [= <- <-]. split; [reflexivity|now right].
Qed.

(** The matcher decides the grammar: [FindStringSubmatch] returns the three
    groups of a line exactly when the line is a response line with those
    parts, so the parts of a response line are determined by the line. *)
Lemma FindStringSubmatch_iff (raw p1 p2 p3 : string) :
  FindStringSubmatch raw = Some (p1, p2, p3) <-> ResponseLine raw p1 p2 p3.
Proof.
  split.
  - unfold FindStringSubmatch.
    destruct raw as [|d1 [|d2 [|d3 [|sp rest]]]]; try discriminate.
    destruct (isDigit d1) eqn:H1; [|discriminate].
    destruct (isDigit d2) eqn:H2; [|discriminate].
    destruct (isDigit d3) eqn:H3; [|discriminate].
    destruct (isReSpace sp) eqn:Hsp; [|discriminate].
    destruct (HasPrefix rest "result=") eqn:Hpre; [|discriminate].
    cbn [andb].
    apply HasPrefix_split in Hpre.
    change (String.length "result=") with 7 in Hpre.
    destruct (cutSign (strDrop 7 rest)) as [sign digits] eqn:Hsign.
    destruct (spanAlnum digits) as [tok tail] eqn:Hspan.
    apply cutSign_split in Hsign as [Hafter Hsigned].
    apply spanAlnum_split in Hspan as (-> & Htok & Htail).
    assert (Htoken : isResultToken (sign +:+ tok) = true).
    { destruct Hsigned as [->| ->]; [exact Htok|].
      simpl. destruct tok as [|c tok]; [reflexivity|].
      simpl in Htok |- *. apply andb_true_iff in Htok as [Hc Htok'].
      now rewrite (isAlnum_not_minus c Hc), Hc, Htok'. }
    assert (Hraw : rest = "result=" +:+ (sign +:+ tok) +:+ tail).
    { rewrite Hpre, Hafter. now rewrite (append_assoc sign tok tail). }
    destruct tail as [|c t].
    + intros [= <- <- <-]. exists d1, d2, d3, sp.
      rewrite Hraw. now repeat split.
    + destruct (isReSpace c && strAll isDot t) eqn:Htr; [|discriminate].
      intros [= <- <- <-]. exists d1, d2, d3, sp.
      rewrite Hraw. now repeat split.
  - intros (d1 & d2 & d3 & sp & -> & -> & H1 & H2 & H3 & Hsp & Htoken & Htr).
    unfold FindStringSubmatch. rewrite H1, H2, H3, Hsp.
    rewrite (HasPrefix_append "result=" (p2 +:+ p3)). cbn [andb].
    change 7 with (String.length "result=").
    rewrite (strDrop_append "result=" (p2 +:+ p3)).
    destruct (cutSign_token p2 p3 Htoken Htr) as (sign & tok & -> & -> & Htok).
    rewrite (spanAlnum_append tok p3 Htok (isTrailing_notAlnumHead p3 Htr)).
    destruct p3 as [|c t]; [reflexivity|].
    simpl in Htr. now rewrite Htr.
Qed.

Lemma HasPrefix_cons (c d : ascii) (p r : string) :
  HasPrefix (String d r) (String c p) = (c =? d)%char && HasPrefix r p.
Proof.
  unfold HasPrefix.
  change (String.prefix (String c p) (String d r))
    with (if ascii_dec c d then String.prefix p r else false).
  destruct (ascii_dec c d) as [->|Hne].
  - now rewrite Ascii.eqb_refl.
  - apply Ascii.eqb_neq in Hne. now rewrite Hne.
Qed.

(** A response line starts with a digit: it is not empty and does not start
    with "HANGUP". *)
Lemma ResponseLine_not_hangup (raw p1 p2 p3 : string) :
  ResponseLine raw p1 p2 p3 ->
  raw <> EmptyString /\ HasPrefix raw "HANGUP" = false.
Proof.
  intros (d1 & d2 & d3 & sp & -> & _ & H1 & _).
  split; [discriminate|].
  rewrite HasPrefix_cons, eqb_code.
  apply byteIn_bounds in H1.
  replace (code "H" =? code d1)%N with false; [reflexivity|].
  symmetry. apply N.eqb_neq. change (code "H") with 72%N. lia.
Qed.

(** ** strconv.Atoi *)

(** The status group, three digits, always parses: to its decimal value. *)
Lemma Atoi_three_digits (d1 d2 d3 : ascii) :
  isDigit d1 = true -> isDigit d2 = true -> isDigit d3 = true ->
  Atoi (String d1 (String d2 (String d3 EmptyString)))
  = ((100 * digitVal d1 + 10 * digitVal d2 + digitVal d3)%Z, None).
Proof.
  intros H1 H2 H3. unfold Atoi. cbn [String.length Nat.ltb Nat.leb andb].
  destruct (isDigit_not_sign d1 H1) as [-> ->]. cbn [orb andb].
  cbn [atoiDigits]. rewrite H1, H2, H3. f_equal. lia.
Qed.

Lemma three_digits_200 (d1 d2 d3 : ascii) :
  isDigit d1 = true -> isDigit d2 = true -> isDigit d3 = true ->
  (100 * digitVal d1 + 10 * digitVal d2 + digitVal d3 = 200)%Z ->
  String d1 (String d2 (String d3 EmptyString)) = "200".
Proof.
  unfold isDigit, digitVal. rewrite !byteIn_bounds. intros H1 H2 H3 H.
  assert (E1 : code d1 = 50%N) by lia.
  assert (E2 : code d2 = 48%N) by lia.
  assert (E3 : code d3 = 48%N) by lia.
  now rewrite (code_inj d1 _ E1), (code_inj d2 _ E2), (code_inj d3 _ E3).
Qed.

(** When [Atoi] reports an error the value is 0 for a text that is not a
    decimal integer, and the nearest 64-bit bound for one out of range. *)
Lemma parseUintLoop_range (s : string) (n un : Z) :
  parseUintLoop s n = (un, Some ErrRange) -> un = maxUint64.
Proof.
  revert n. induction s as [|c s IH]; intros n; simpl; [discriminate|].
  destruct (isDigit c); [|discriminate].
  destruct (_ <=? n)%Z; [now intros [= <-]|].
  destruct (_ || _); [now intros [= <-]|]. apply IH.
Qed.

(** An error of [Atoi] is a syntax error beside 0, or a range error beside
    the bound on the side of the sign; the fast path of tokens under 19
    bytes has no range error. *)
Lemma Atoi_error_kind (s : string) (n : Z) (e : error) :
  Atoi s = (n, Some e) ->
  (e = NumError "Atoi" s ErrSyntax /\ n = 0%Z)
  \/ (e = NumError "Atoi" s ErrRange
      /\ 19 <= String.length s
      /\ n = if HasPrefix s "-" then (- 2 ^ 63)%Z else (2 ^ 63 - 1)%Z).
Proof.
  unfold Atoi. destruct (_ && _) eqn:Hfast.
  - destruct s as [|c r]; [intros [= <- <-]; now left|].
    clear Hfast.
    destruct (_ && _); [intros [= <- <-]; now left|].
    destruct (atoiDigits _ 0); [discriminate|].
    intros [= <- <-]. now left.
  - destruct (ParseInt s) as [i64 err] eqn:Hparse.
    destruct err as [k|]; [|discriminate].
    cbn [option_map]. intros [= <- <-].
    unfold ParseInt in Hparse. destruct s as [|c r].
    + injection Hparse as <- <-. now left.
    + assert (Hlen : 19 <= String.length (String c r)).
      { apply andb_false_iff in Hfast as [H | H].
        - discriminate H.
        - now apply Nat.ltb_ge in H. }
      assert (Hsign : HasPrefix (String c r) "-" = (c =? "-")%char).
      { rewrite HasPrefix_cons, Ascii.eqb_sym. unfold HasPrefix.
        destruct r; apply andb_true_r. }
      rewrite Hsign.
      destruct (ParseUint _) as [un [[]|]] eqn:Hun.
      * injection Hparse as <- <-. now left.
      * destruct (c =? "-")%char; cbn [negb andb] in Hparse.
        { destruct (_ <? un)%Z; [|discriminate].
          injection Hparse as <- <-. right. now repeat split. }
        destruct (_ <=? un)%Z; [|discriminate].
        injection Hparse as <- <-. right. now repeat split.
      * destruct (c =? "-")%char; cbn [negb andb] in Hparse.
        { destruct (_ <? un)%Z; [|discriminate].
          injection Hparse as <- <-. right. now repeat split. }
        destruct (_ <=? un)%Z; [|discriminate].
        injection Hparse as <- <-. right. now repeat split.
Qed.

(** ** The command/response exchange *)

Lemma checkStatus_fields (r : Response) :
  Status (checkStatus r) = Status r
  /\ Result (checkStatus r) = Result r
  /\ ResultString (checkStatus r) = ResultString r
  /\ Value (checkStatus r) = Value r
  /\ Error (checkStatus r)
     = if (Status r =? 200)%Z then Error r
       else Some (Errorf "Non-200 status code").
Proof. unfold checkStatus. destruct (Status r =? 200)%Z; now repeat split. Qed.

Lemma checkStatus_not_hangup (r : Response) :
  Error (checkStatus r) = Some ErrHangup -> Error r = Some ErrHangup.
Proof.
  destruct (checkStatus_fields r) as (_ & _ & _ & _ & ->).
  destruct (Status r =? 200)%Z; [trivial|discriminate].
Qed.

Lemma HasPrefix_not_empty (raw p : string) :
  HasPrefix raw p = true -> p <> EmptyString -> raw <> EmptyString.
Proof.
  intros H Hp ->. destruct p as [|c p]; [congruence|]. discriminate H.
Qed.

Lemma parseResponse_hangup (raw : string) :
  Error (parseResponse raw emptyResponse) = Some ErrHangup ->
  HasPrefix raw "HANGUP" = true.
Proof.
  unfold parseResponse. destruct (HasPrefix raw "HANGUP"); [reflexivity|].
  destruct (FindStringSubmatch raw) as [[[p1 p2] p3]|]; [|discriminate].
  destruct (Atoi p1) as [status [e|]]; [discriminate|].
  destruct (Atoi p2) as [result [e|]]; intros H;
    apply checkStatus_not_hangup in H; discriminate H.
Qed.

(** A failed write ends the call before anything is read. *)
Lemma Command_write_failure (a : AGI) (rd : string) (cmd : list string)
    (err : error) :
  w a (Join cmd " " +:+ newline) = Some err ->
  Command a rd cmd
  = withError (Some (Wrapped err "failed to send command")) emptyResponse.
Proof. intros Hw. unfold Command. now rewrite Hw. Qed.

(** The exchanges of a session [a] whose writer accepts the command line of
    [cmd]; [rd] is what the reader then delivers. *)
Section Exchange.

Variable a : AGI.
Variable cmd : list string.
Hypothesis write_ok : w a (Join cmd " " +:+ newline) = None.

Lemma Command_line (rd raw rest : string) :
  Scan rd = Some (raw, rest) ->
  raw <> EmptyString ->
  Command a rd cmd = parseResponse raw emptyResponse.
Proof.
  intros Hscan Hraw. unfold Command. rewrite write_ok, Hscan.
  destruct raw; [congruence|reflexivity].
Qed.

Lemma Command_response_line (rd raw rest p1 p2 p3 : string) :
  Scan rd = Some (raw, rest) ->
  ResponseLine raw p1 p2 p3 ->
  Command a rd cmd = checkStatus (parsedResponse p1 p2 p3).
Proof.
  intros Hscan Hline.
  destruct (ResponseLine_not_hangup _ _ _ _ Hline) as [Hne Hhang].
  rewrite (Command_line rd raw rest Hscan Hne).
  unfold parseResponse. rewrite Hhang.
  apply FindStringSubmatch_iff in Hline as Hfind. rewrite Hfind.
  destruct Hline as (d1 & d2 & d3 & sp & _ & -> & H1 & H2 & H3 & _).
  unfold parsedResponse.
  rewrite (Atoi_three_digits d1 d2 d3 H1 H2 H3).
  destruct (Atoi p2) as [result [e|]]; reflexivity.
Qed.

(** Rewrite the response to a response line into its fields. *)
Ltac response_fields Hscan Hline :=
  rewrite (Command_response_line _ _ _ _ _ _ Hscan Hline);
  match goal with
  | |- context [checkStatus ?r] =>
      let Est := fresh in let Eres := fresh in let Estr := fresh in
      let Eval := fresh in let Eerr := fresh in
      destruct (checkStatus_fields r) as (Est & Eres & Estr & Eval & Eerr);
      rewrite ?Est, ?Eres, ?Estr, ?Eval, ?Eerr;
      clear Est Eres Estr Eval Eerr
  end;
  unfold parsedResponse; cbn [Status Result ResultString Value Error].

(** C1. A line [DDD result=R (V)] (three digits, a space, "result=", a
    result token of an optional minus sign and alphanumerics, a space and a
    parenthesised value) that the scanner yields first gives a response
    with [Status] the number [DDD], [ResultString = R] and [Value = V]; when
    [DDD] is 200 and [R] parses as an integer [n], [Error] is nil and
    [Result] is [n]. *)
Theorem Command_well_formed_line (rd rest : string) (d1 d2 d3 : ascii)
    (R V : string) :
  isDigit d1 = true -> isDigit d2 = true -> isDigit d3 = true ->
  isResultToken R = true ->
  Scan rd
  = Some (String d1 (String d2 (String d3
            (" result=" +:+ R +:+ " (" +:+ V +:+ ")"))), rest) ->
  let resp := Command a rd cmd in
  Status resp = (100 * digitVal d1 + 10 * digitVal d2 + digitVal d3)%Z
  /\ ResultString resp = R
  /\ Value resp = V
  /\ (forall n : Z,
        String d1 (String d2 (String d3 EmptyString)) = "200" ->
        Atoi R = (n, None) ->
        Error resp = None /\ Result resp = n).
Proof.
  intros H1 H2 H3 HR Hscan resp.
  set (p1 := String d1 (String d2 (String d3 EmptyString))).
  set (p3 := " (" +:+ V +:+ ")").
  assert (Hdot : strAll isDot p3 = true).
  { apply Scan_no_newline in Hscan. cbn [strAll] in Hscan.
    rewrite !strAll_append in Hscan.
    repeat (apply andb_true_iff in Hscan as [? Hscan]).
    unfold p3. rewrite !strAll_append.
    repeat (apply andb_true_iff; split); assumption. }
  assert (Hline : ResponseLine
            (String d1 (String d2 (String d3
               (" result=" +:+ R +:+ " (" +:+ V +:+ ")")))) p1 R p3).
  { exists d1, d2, d3, " "%char. repeat split; assumption. }
  assert (Hvalue : TrimSuffix (TrimPrefix (TrimSpace p3) "(") ")" = V).
  { unfold p3.
    change (" (" +:+ V +:+ ")") with (String " " ("(" +:+ V +:+ ")")).
    rewrite TrimSpace_skip by reflexivity.
    rewrite TrimSpace_parens, (TrimPrefix_append "(" (V +:+ ")")).
    apply TrimSuffix_append. }
  pose proof (Atoi_three_digits d1 d2 d3 H1 H2 H3) as Hstatus. fold p1 in Hstatus.
  unfold resp. response_fields Hscan Hline.
  rewrite Hstatus. cbn [fst].
  split; [reflexivity|]. split; [reflexivity|]. split; [exact Hvalue|].
  intros n H200 Hn. fold p1 in H200.
  rewrite H200 in Hstatus. injection Hstatus as <-.
  rewrite Hn. now split.
Qed.


(** C4 (as amended). For a response line whose result token is not an
    integer the loop body goes on: [ResultString] is the token, [Value] is
    taken from the trailing segment, [Status] is set, and [Result] is what
    [Atoi] returned beside its error: 0 beside a syntax error; beside a
    range error, which only a token of 19 bytes or more gets, -2^63 for a
    token that begins with a minus sign and 2^63-1 for any other.  [Error]
    is set: to the wrapped integer-parse error when the status is 200, to
    the non-200 error otherwise. *)
Theorem Command_result_not_integer (rd raw rest p1 p2 p3 : string) (n : Z)
    (e : error) :
  Scan rd = Some (raw, rest) ->
  ResponseLine raw p1 p2 p3 ->
  Atoi p2 = (n, Some e) ->
  let resp := Command a rd cmd in
  ResultString resp = p2
  /\ Value resp = TrimSuffix (TrimPrefix (TrimSpace p3) "(") ")"
  /\ Status resp = fst (Atoi p1)
  /\ Result resp = n
  /\ ((e = NumError "Atoi" p2 ErrSyntax /\ n = 0%Z)
      \/ (e = NumError "Atoi" p2 ErrRange
          /\ 19 <= String.length p2
          /\ n = if HasPrefix p2 "-" then (- 2 ^ 63)%Z else (2 ^ 63 - 1)%Z))
  /\ Error resp
     = (if (Status resp =? 200)%Z
        then Some (Wrapped e "failed to parse result-code as an integer")
        else Some (Errorf "Non-200 status code")).
Proof.
  intros Hscan Hline Hres resp. unfold resp.
  response_fields Hscan Hline.
  rewrite Hres. cbn [fst snd Wrap].
  repeat split. exact (Atoi_error_kind p2 n e Hres).
Qed.

(** C5. A response line with a status other than 200 gives the generic
    non-200 error, with the parsed status, result token and value in the
    response. *)
Theorem Command_non_200_status (rd raw rest p1 p2 p3 : string) :
  Scan rd = Some (raw, rest) ->
  ResponseLine raw p1 p2 p3 ->
  p1 <> "200" ->
  let resp := Command a rd cmd in
  Error resp = Some (Errorf "Non-200 status code")
  /\ Status resp = fst (Atoi p1)
  /\ Status resp <> 200%Z
  /\ Result resp = fst (Atoi p2)
  /\ ResultString resp = p2
  /\ Value resp = TrimSuffix (TrimPrefix (TrimSpace p3) "(") ")".
Proof.
  intros Hscan Hline Hne resp. unfold resp.
  response_fields Hscan Hline.
  assert (Hst : fst (Atoi p1) <> 200%Z).
  { destruct Hline as (d1 & d2 & d3 & sp & _ & -> & H1 & H2 & H3 & _).
    rewrite (Atoi_three_digits d1 d2 d3 H1 H2 H3). cbn [fst].
    intros H. apply Hne. now apply three_digits_200. }
  apply Z.eqb_neq in Hst as Hst'. rewrite Hst'. now repeat split.
Qed.

(** C6 (as amended). A non-empty line that does not begin with "HANGUP" and
    is not a response line ends the call with the parse error that carries
    the line; status, result and value stay at their zero values. *)
Theorem Command_unparseable_line (rd raw rest : string) :
  Scan rd = Some (raw, rest) ->
  raw <> EmptyString ->
  HasPrefix raw "HANGUP" = false ->
  (forall p1 p2 p3 : string, ~ ResponseLine raw p1 p2 p3) ->
  Command a rd cmd
  = {| Error := Some (Errorf ("failed to parse result: " +:+ raw));
       Status := 0; Result := 0;
       ResultString := EmptyString; Value := EmptyString |}.
Proof.
  intros Hscan Hne Hhang Hnot.
  rewrite (Command_line rd raw rest Hscan Hne).
  unfold parseResponse. rewrite Hhang.
  destruct (FindStringSubmatch raw) as [[[p1 p2] p3]|] eqn:Hfind; [|reflexivity].
  apply FindStringSubmatch_iff in Hfind. destruct (Hnot p1 p2 p3 Hfind).
Qed.

(** C10. When the command is written and the scanner yields an empty line,
    or nothing at all, before any response, the response is the zero
    response with the same non-200 error a response line with another
    status gets. *)
Theorem Command_no_response_line (rd : string) :
  Scan rd = None \/ (exists rest : string, Scan rd = Some (EmptyString, rest)) ->
  Command a rd cmd
  = {| Error := Some (Errorf "Non-200 status code");
       Status := 0; Result := 0;
       ResultString := EmptyString; Value := EmptyString |}.
Proof.
  intros Hscan. unfold Command. rewrite write_ok.
  destruct Hscan as [-> | [rest ->]]; reflexivity.
Qed.

End Exchange.

(** C3 (as amended). [Command] ends in [ErrHangup] exactly when the command
    was written and the first line the scanner yields begins with "HANGUP"
    (case-sensitive; further content may follow); the response then holds
    the error and nothing of the response grammar. *)
Theorem Command_hangup_iff_prefix (a : AGI) (rd : string) (cmd : list string) :
  (Error (Command a rd cmd) = Some ErrHangup <->
   w a (Join cmd " " +:+ newline) = None
   /\ exists raw rest : string,
        Scan rd = Some (raw, rest) /\ HasPrefix raw "HANGUP" = true)
  /\ (Error (Command a rd cmd) = Some ErrHangup ->
      Command a rd cmd = withError (Some ErrHangup) emptyResponse).
Proof.
  assert (Hback : w a (Join cmd " " +:+ newline) = None ->
                  forall raw rest, Scan rd = Some (raw, rest) ->
                  HasPrefix raw "HANGUP" = true ->
                  Command a rd cmd = withError (Some ErrHangup) emptyResponse).
  { intros Hw raw rest Hscan Hpre.
    rewrite (Command_line a cmd Hw rd raw rest Hscan).
    - unfold parseResponse. now rewrite Hpre.
    - apply (HasPrefix_not_empty raw "HANGUP" Hpre). discriminate. }
  assert (Hforth : Error (Command a rd cmd) = Some ErrHangup ->
                   w a (Join cmd " " +:+ newline) = None
                   /\ exists raw rest : string,
                        Scan rd = Some (raw, rest)
                        /\ HasPrefix raw "HANGUP" = true).
  { unfold Command.
    destruct (w a (Join cmd " " +:+ newline)) as [e|]; [discriminate|].
    destruct (Scan rd) as [[raw rest]|] eqn:Hscan; [|discriminate].
    destruct raw as [|c raw]; [discriminate|].
    intros H. split; [reflexivity|]. exists (String c raw), rest.
    split; [reflexivity|]. now apply parseResponse_hangup. }
  split; [split|].
  - exact Hforth.
  - intros (Hw & raw & rest & Hscan & Hpre).
    now rewrite (Hback Hw raw rest Hscan Hpre).
  - intros H. destruct (Hforth H) as (Hw & raw & rest & Hscan & Hpre).
    exact (Hback Hw raw rest Hscan Hpre).
Qed.

(** *** Instances and counterexamples *)

Lemma Command_well_formed_line_witness :
  let resp :=
    Command exampleSession ("200 result=-1 (hello world)" +:+ newline) ["ANSWER"] in
  Status resp = (100 * digitVal "2" + 10 * digitVal "0" + digitVal "0")%Z
  /\ ResultString resp = "-1"
  /\ Value resp = "hello world"
  /\ (forall n : Z,
        "200" = "200" -> Atoi "-1" = (n, None) ->
        Error resp = None /\ Result resp = n).
Proof.
  exact (Command_well_formed_line exampleSession ["ANSWER"] eq_refl
           ("200 result=-1 (hello world)" +:+ newline) EmptyString
           "2" "0" "0" "-1" "hello world"
           eq_refl eq_refl eq_refl eq_refl eq_refl).
Defined.



(** C3, the claim as it stands, fails: the line "HANGUP now" is not the
    literal "HANGUP", and the call still ends in [ErrHangup]. *)
Lemma Command_hangup_with_further_content :
  let rd := "HANGUP now" +:+ newline in
  Scan rd = Some ("HANGUP now", EmptyString)
  /\ "HANGUP now" <> "HANGUP"
  /\ Error (Command exampleSession rd ["ANSWER"]) = Some ErrHangup.
Proof. repeat split. discriminate. Qed.

Lemma Command_result_not_integer_witness :
  let tok := "99999999999999999999999a" in
  let resp :=
    Command exampleSession
      ("200 result=99999999999999999999999a (timeout)" +:+ newline)
      ["GET DATA"; "beep"; "1000"; "4"] in
  ResultString resp = tok
  /\ Value resp = TrimSuffix (TrimPrefix (TrimSpace " (timeout)") "(") ")"
  /\ Status resp = fst (Atoi "200")
  /\ Result resp = (2 ^ 63 - 1)%Z
  /\ ((NumError "Atoi" tok ErrRange = NumError "Atoi" tok ErrSyntax
       /\ (2 ^ 63 - 1)%Z = 0%Z)
      \/ (NumError "Atoi" tok ErrRange = NumError "Atoi" tok ErrRange
          /\ 19 <= String.length tok
          /\ (2 ^ 63 - 1)%Z
             = if HasPrefix tok "-" then (- 2 ^ 63)%Z else (2 ^ 63 - 1)%Z))
  /\ Error resp
     = (if (Status resp =? 200)%Z
        then Some (Wrapped (NumError "Atoi" tok ErrRange)
                     "failed to parse result-code as an integer")
        else Some (Errorf "Non-200 status code")).
Proof.
  apply (Command_result_not_integer exampleSession
           ["GET DATA"; "beep"; "1000"; "4"] eq_refl
           ("200 result=99999999999999999999999a (timeout)" +:+ newline)
           "200 result=99999999999999999999999a (timeout)" EmptyString "200"
           "99999999999999999999999a" " (timeout)"
           (2 ^ 63 - 1)%Z (NumError "Atoi" "99999999999999999999999a" ErrRange)).
  - reflexivity.
  - apply FindStringSubmatch_iff. reflexivity.
  - vm_compute. reflexivity.
Defined.

(** C4, the claim as it stands, fails: "200 result= (timeout)" matches the
    grammar with an empty result token, which is not an integer, and the
    response carries the integer-parse error. *)
Lemma Command_result_not_integer_sets_error :
  let rd := "200 result= (timeout)" +:+ newline in
  Scan rd = Some ("200 result= (timeout)", EmptyString)
  /\ FindStringSubmatch "200 result= (timeout)"
     = Some ("200", EmptyString, " (timeout)")
  /\ Atoi EmptyString = (0%Z, Some (NumError "Atoi" EmptyString ErrSyntax))
  /\ Error (Command exampleSession rd ["GET DATA"; "beep"; "1000"; "4"])
     = Some (Wrapped (NumError "Atoi" EmptyString ErrSyntax)
               "failed to parse result-code as an integer")
  /\ Error (Command exampleSession rd ["GET DATA"; "beep"; "1000"; "4"])
     <> None.
Proof. repeat split. discriminate. Qed.

Lemma Command_non_200_status_witness :
  let resp :=
    Command exampleSession ("510 result=-1 (Invalid command)" +:+ newline)
      ["NOSUCH"] in
  Error resp = Some (Errorf "Non-200 status code")
  /\ Status resp = fst (Atoi "510")
  /\ Status resp <> 200%Z
  /\ Result resp = fst (Atoi "-1")
  /\ ResultString resp = "-1"
  /\ Value resp
     = TrimSuffix (TrimPrefix (TrimSpace " (Invalid command)") "(") ")".
Proof.
  apply (Command_non_200_status exampleSession ["NOSUCH"] eq_refl
           ("510 result=-1 (Invalid command)" +:+ newline)
           "510 result=-1 (Invalid command)" EmptyString
           "510" "-1" " (Invalid command)").
  - reflexivity.
  - apply FindStringSubmatch_iff. reflexivity.
  - discriminate.
Defined.

Lemma Command_unparseable_line_witness :
  Command exampleSession ("not a response" +:+ newline) ["ANSWER"]
  = {| Error := Some (Errorf ("failed to parse result: " +:+ "not a response"));
       Status := 0; Result := 0;
       ResultString := EmptyString; Value := EmptyString |}.
Proof.
  apply (Command_unparseable_line exampleSession ["ANSWER"] eq_refl
           ("not a response" +:+ newline) "not a response" EmptyString).
  - reflexivity.
  - discriminate.
  - reflexivity.
  - intros p1 p2 p3 H. apply FindStringSubmatch_iff in H. discriminate H.
Defined.

(** C6, the claim as it stands, fails: "HANGUP 1" is not empty, is not the
    line "HANGUP" and does not match the grammar, and the call ends in
    [ErrHangup], not in the parse error. *)
Lemma Command_hangup_prefix_is_not_parse_error :
  let rd := "HANGUP 1" +:+ newline in
  Scan rd = Some ("HANGUP 1", EmptyString)
  /\ "HANGUP 1" <> EmptyString
  /\ "HANGUP 1" <> "HANGUP"
  /\ FindStringSubmatch "HANGUP 1" = None
  /\ Error (Command exampleSession rd ["ANSWER"]) = Some ErrHangup
  /\ Error (Command exampleSession rd ["ANSWER"])
     <> Some (Errorf ("failed to parse result: " +:+ "HANGUP 1")).
Proof. repeat split; discriminate. Qed.

Lemma Command_no_response_line_witness :
  Command exampleSession EmptyString ["ANSWER"]
  = {| Error := Some (Errorf "Non-200 status code");
       Status := 0; Result := 0;
       ResultString := EmptyString; Value := EmptyString |}
  /\ Command exampleSession (newline +:+ "200 result=0" +:+ newline) ["ANSWER"]
     = {| Error := Some (Errorf "Non-200 status code");
          Status := 0; Result := 0;
          ResultString := EmptyString; Value := EmptyString |}.
Proof.
  split.
  - apply (Command_no_response_line exampleSession ["ANSWER"] eq_refl
             EmptyString).
    left. reflexivity.
  - apply (Command_no_response_line exampleSession ["ANSWER"] eq_refl
             (newline +:+ "200 result=0" +:+ newline)).
    right. exists ("200 result=0" +:+ newline). reflexivity.
Defined.

(** ** The preamble reader *)

Lemma scanLines_step (data : string) :
  scanLines data
  = match Scan data with
    | None => []
    | Some (text, rest) => text :: scanLines rest
    end.
Proof.
  funelim (scanLines data);
    match goal with E : Scan _ = _ |- _ => rewrite E end; reflexivity.
Qed.

Lemma scanVariables_step (data : string) (vars : gmap string string) :
  scanVariables data vars
  = match Scan data with
    | None => (vars, data)
    | Some (EmptyString, rest) => (vars, rest)
    | Some (text, rest) => scanVariables rest (storeLine text vars)
    end.
Proof.
  funelim (scanVariables data vars);
    match goal with E : Scan _ = _ |- _ => rewrite E end; reflexivity.
Qed.

Lemma cutAt_absent (sep : ascii) (s : string) :
  strAll (fun c => negb (c =? sep)%char) s = true -> cutAt sep s = None.
Proof.
  induction s as [|c s IH]; simpl; [reflexivity|].
  destruct (c =? sep)%char; [discriminate|]. simpl.
  intros H. now rewrite (IH H).
Qed.

(** A line with a colon is stored under the text before its first colon,
    with everything after that colon as the value, both trimmed. *)
Lemma storeLine_colon (key value : string) (vars : gmap string string) :
  noColon key = true ->
  storeLine (key +:+ ":" +:+ value) vars
  = <[TrimSpace key := TrimSpace value]> vars.
Proof.
  intros Hkey. unfold storeLine, SplitN.
  rewrite length_append. cbn [String.append String.length].
  replace (Nat.min 2 (S (String.length key + S (String.length value))))
    with 2 by lia.
  cbn [splitLoop].
  change (key +:+ ":" +:+ value) with (key +:+ String ":" value).
  now rewrite (cutAt_append ":" key value Hkey).
Qed.

(** A line without a colon stores nothing. *)
Lemma storeLine_no_colon (line : string) (vars : gmap string string) :
  noColon line = true -> storeLine line vars = vars.
Proof.
  intros Hline. unfold storeLine, SplitN.
  destruct (Nat.min 2 (S (String.length line))) as [|[|k]]; [reflexivity..|].
  cbn [splitLoop]. now rewrite (cutAt_absent ":" line Hline).
Qed.

(** The loop consumes the lines before the first empty one and that empty
    line, folds [storeLine] over the former, and leaves the rest unread. *)
Lemma scanVariables_lines (data : string) (vars : gmap string string) :
  let consumed := linesBeforeBlank (scanLines data) in
  fst (scanVariables data vars)
  = fold_left (fun vars line => storeLine line vars) consumed vars
  /\ Forall (fun line => line <> EmptyString) consumed
  /\ ((scanLines data = consumed
       /\ scanLines (snd (scanVariables data vars)) = [])
      \/ (scanLines data
          = consumed ++ EmptyString :: scanLines (snd (scanVariables data vars)))).
Proof.
  remember (String.length data) as n eqn:Hn. revert data vars Hn.
  induction n as [n IH] using lt_wf_ind. intros data vars ->.
  rewrite scanVariables_step, (scanLines_step data).
  destruct (Scan data) as [[text rest]|] eqn:Hscan.
  - destruct text as [|c text].
    + cbn. repeat split; [constructor|]. right. reflexivity.
    + pose proof (Scan_shorter _ _ _ Hscan) as Hlt.
      destruct (IH _ Hlt rest (storeLine (String c text) vars) eq_refl)
        as (Hvars & Hall & Hrest).
      cbn [linesBeforeBlank fold_left]. split; [exact Hvars|]. split.
      * constructor; [discriminate|exact Hall].
      * destruct Hrest as [[Hl Hr]|Hl].
        -- left. split; [now rewrite Hl at 1|exact Hr].
        -- right. now rewrite Hl at 1.
  - cbn. repeat split; [constructor|]. left.
    split; [reflexivity|]. now rewrite scanLines_step, Hscan.
Qed.

(** C7. The preamble reader takes the scanner's lines up to the first empty
    line or the end of the input; each of them with a colon is stored under
    the trimmed text before its first colon with the trimmed text after it
    (further colons kept) as the value, one without a colon stores
    nothing; the empty line is consumed and not stored; and an input that
    ends without one gives the variables read so far. *)
Theorem NewWithEAGI_preamble (rd : string) (wr : Writer) (ea : option string) :
  let consumed := linesBeforeBlank (scanLines rd) in
  let unread := snd (scanVariables rd ∅) in
  Variables (NewWithEAGI rd wr ea)
  = fold_left (fun vars line => storeLine line vars) consumed ∅
  /\ Forall (fun line => line <> EmptyString) consumed
  /\ ((scanLines rd = consumed /\ scanLines unread = [])
      \/ scanLines rd = consumed ++ EmptyString :: scanLines unread)
  /\ (forall (key value : string) (vars : gmap string string),
        noColon key = true ->
        storeLine (key +:+ ":" +:+ value) vars
        = <[TrimSpace key := TrimSpace value]> vars)
  /\ (forall (line : string) (vars : gmap string string),
        noColon line = true -> storeLine line vars = vars).
Proof.
  intros consumed unread.
  destruct (scanVariables_lines rd ∅) as (Hvars & Hall & Hrest).
  split; [exact Hvars|]. split; [exact Hall|]. split; [exact Hrest|].
  split; [exact storeLine_colon|exact storeLine_no_colon].
Qed.

(** ** The listener *)

Lemma acceptLoop_failure (conns : list Conn) (err : error)
    (rest : list AcceptResult) :
  acceptLoop (map Accepted conns ++ AcceptFailed err :: rest)
  = (map NewConn conns,
     Some (Some (Wrapped err "failed to accept TCP connection"))).
Proof.
  induction conns as [|c conns IH]; [reflexivity|].
  cbn [map app acceptLoop]. now rewrite IH.
Qed.

Lemma acceptLoop_running (conns : list Conn) :
  acceptLoop (map Accepted conns) = (map NewConn conns, None).
Proof.
  induction conns as [|c conns IH]; [reflexivity|].
  cbn [map acceptLoop]. now rewrite IH.
Qed.

Lemma acceptLoop_not_nil (results : list AcceptResult) :
  snd (acceptLoop results) <> Some None.
Proof.
  induction results as [|[c|err] results IH]; cbn [acceptLoop]; try discriminate.
  destruct (acceptLoop results) as [sessions ret]. exact IH.
Qed.

(** C9. [Listen] with the empty address binds "localhost:4573", and any
    other address as given, with a single call of [net.Listen]; a bind
    failure is returned, wrapped, and nothing is accepted; the first accept
    failure ends the loop and is returned, wrapped, after a session was
    handed over for every connection accepted before it; while every
    [Accept] succeeds [Listen] does not return; and it never returns nil. *)
Theorem Listen_bind_and_accept (netListen : string -> BindResult) (addr : string) :
  let run := Listen netListen addr in
  binds (Listen netListen EmptyString) = ["localhost:4573"]
  /\ (addr <> EmptyString -> binds run = [addr])
  /\ (forall err : error,
        netListen (listenAddr addr) = BindFailed err ->
        returned run = Some (Some (Wrapped err "failed to bind server"))
        /\ handled run = [])
  /\ (forall (l : Listener) (conns : list Conn) (err : error)
             (rest : list AcceptResult),
        netListen (listenAddr addr) = Bound l ->
        accepts l = map Accepted conns ++ AcceptFailed err :: rest ->
        returned run
        = Some (Some (Wrapped err "failed to accept TCP connection"))
        /\ handled run = map NewConn conns)
  /\ (forall (l : Listener) (conns : list Conn),
        netListen (listenAddr addr) = Bound l ->
        accepts l = map Accepted conns ->
        returned run = None /\ handled run = map NewConn conns)
  /\ returned run <> Some None.
Proof.
  intros run. unfold run, Listen.
  split.
  { now destruct (netListen (listenAddr EmptyString)) as [l|err];
      [destruct (acceptLoop (accepts l))|]. }
  split.
  { intros Hne. destruct addr as [|c addr]; [congruence|].
    now destruct (netListen (listenAddr (String c addr))) as [l|err];
      [destruct (acceptLoop (accepts l))|]. }
  split.
  { intros err Hbind. now rewrite Hbind. }
  split.
  { intros l conns err rest Hbind Hacc.
    rewrite Hbind, Hacc, acceptLoop_failure. now split. }
  split.
  { intros l conns Hbind Hacc.
    rewrite Hbind, Hacc, acceptLoop_running. now split. }
  destruct (netListen (listenAddr addr)) as [l|err]; [|discriminate].
  pose proof (acceptLoop_not_nil (accepts l)) as Hnil.
  destruct (acceptLoop (accepts l)) as [sessions ret]. exact Hnil.
Qed.

(** ** Lines and bytes

    What the scanner yields for an input given by its bytes: a line that
    fits the buffer, followed by a newline, is yielded without a trailing
    carriage return, and the scanner goes on after the newline. *)

Lemma Scan_terminated (line rest : string) :
  strAll isDot line = true ->
  (N.of_nat (String.length line) < MaxScanTokenSize)%N ->
  Scan (line +:+ newline +:+ rest) = Some (dropCR line, rest).
Proof.
  intros Hdot Hlen.
  change (line +:+ newline +:+ rest) with (line +:+ String "010" rest).
  assert (Hcut : cutAt "010" (line +:+ String "010" rest) = Some (line, rest))
    by exact (cutAt_append "010" line rest Hdot).
  apply N.ltb_lt in Hlen. unfold Scan.
  destruct line as [|c line]; cbn [String.append] in *; now rewrite Hcut, Hlen.
Qed.

Lemma scanLines_terminated (line rest : string) :
  strAll isDot line = true ->
  (N.of_nat (String.length line) < MaxScanTokenSize)%N ->
  scanLines (line +:+ newline +:+ rest) = dropCR line :: scanLines rest.
Proof.
  intros Hdot Hlen.
  now rewrite scanLines_step, (Scan_terminated line rest Hdot Hlen).
Qed.

(** The preamble of the specification's example, and one that ends without
    a blank line. *)
Example NewWithEAGI_example :
  Variables
    (New ("agi_request: foo.agi" +:+ newline +:+ "agi_channel: SIP/1" +:+ newline
          +:+ newline) (fun _ => None))
  = <["agi_channel" := "SIP/1"]> (<["agi_request" := "foo.agi"]> ∅).
Proof. vm_compute. reflexivity. Qed.

Example NewWithEAGI_unterminated_example :
  Variables
    (New ("agi_request: foo.agi" +:+ newline +:+ "agi_callerid: sip:100@pbx  ")
       (fun _ => None))
  = <["agi_callerid" := "sip:100@pbx"]> (<["agi_request" := "foo.agi"]> ∅).
Proof. vm_compute. reflexivity. Qed.

(** The end-to-end example: "ANSWER" answered by "200 result=0". *)
Example Command_answer_example :
  Command exampleSession ("200 result=0" +:+ newline) ["ANSWER"]
  = {| Error := None; Status := 200; Result := 0;
       ResultString := "0"; Value := EmptyString |}.
Proof. reflexivity. Qed.

(** ** The earlier revision

    Where the earlier revision of the package parts from the current one. *)

(** It has no hangup test: the line "HANGUP" is a parse failure. *)
Example Earlier_Command_hangup_example :
  Earlier.Command exampleSession ("HANGUP" +:+ newline) ["ANSWER"]
  = withError (Some (Errorf "failed to parse result: HANGUP")) emptyResponse.
Proof. reflexivity. Qed.

(** With no line to parse it behaves as the current revision does. *)
Lemma Earlier_Command_no_response_line (a : AGI) (cmd : list string)
    (rd : string) :
  w a (Join cmd " " +:+ newline) = None ->
  Scan rd = None \/ (exists rest : string, Scan rd = Some (EmptyString, rest)) ->
  Earlier.Command a rd cmd
  = {| Error := Some (Errorf "Non-200 status code");
       Status := 0; Result := 0;
       ResultString := EmptyString; Value := EmptyString |}.
Proof.
  intros Hw Hscan. unfold Earlier.Command. rewrite Hw.
  destruct Hscan as [-> | [rest ->]]; reflexivity.
Qed.

(** It returns as soon as the result token fails to parse, so the value is
    not read. *)
Lemma Earlier_Command_result_not_integer (a : AGI) (cmd : list string)
    (rd raw rest p1 p2 p3 : string) (n : Z) (e : error) :
  w a (Join cmd " " +:+ newline) = None ->
  Scan rd = Some (raw, rest) ->
  ResponseLine raw p1 p2 p3 ->
  Atoi p2 = (n, Some e) ->
  Earlier.Command a rd cmd
  = {| Error := Some (Wrapped e "failed to parse status code as an integer");
       Status := fst (Atoi p1); Result := n;
       ResultString := p2; Value := EmptyString |}.
Proof.
  intros Hw Hscan Hline Hres.
  destruct (ResponseLine_not_hangup _ _ _ _ Hline) as [Hne _].
  unfold Earlier.Command. rewrite Hw, Hscan.
  destruct raw as [|c raw]; [congruence|].
  unfold Earlier.parseResponse.
  apply FindStringSubmatch_iff in Hline as Hfind. rewrite Hfind.
  destruct Hline as (d1 & d2 & d3 & sp & _ & -> & H1 & H2 & H3 & _).
  rewrite (Atoi_three_digits d1 d2 d3 H1 H2 H3), Hres. reflexivity.
Qed.

(** Its preamble loop drops a line whose value holds a colon. *)
Lemma Earlier_storeLine_second_colon (key value more : string)
    (vars : gmap string string) :
  noColon key = true -> noColon value = true ->
  Earlier.storeLine (key +:+ ":" +:+ value +:+ ":" +:+ more) vars = vars.
Proof.
  intros Hkey Hvalue. unfold Earlier.storeLine, Split.
  rewrite !length_append. cbn [String.length].
  replace (String.length key
           + (1 + (String.length value + (1 + String.length more))))
    with (S (S (String.length key + String.length value + String.length more)))
    by lia.
  cbn [splitLoop].
  change (key +:+ ":" +:+ value +:+ ":" +:+ more)
    with (key +:+ String ":" (value +:+ String ":" more)).
  rewrite (cutAt_append ":" key _ Hkey), (cutAt_append ":" value more Hvalue).
  now destruct (String.length key + String.length value + String.length more);
    cbn [splitLoop]; [|destruct (cutAt ":" more) as [[b a]|]].
Qed.

Example Earlier_NewWithEAGI_example :
  Variables
    (Earlier.NewWithEAGI
       ("agi_request: foo.agi" +:+ newline +:+ "agi_callerid: sip:100@pbx"
        +:+ newline +:+ newline) (fun _ => None) None)
  = <["agi_request" := "foo.agi"]> ∅.
Proof. vm_compute. reflexivity. Qed.

(** * The operations built on [Command]

    The rest of the package: the accessors of [Response], [Close], and the
    operations that send one command and reshape its response ([Get],
    [Status], [GetData], [StreamFile], [WaitForDigit]) or several in a row
    ([getRecognitionResult], [RecognitionInterpretation]).  As before, an
    operation that reads is given what the reader delivers to the scanner
    of its [Command]. *)

From Stdlib Require DecimalString.

(** [strconv.Itoa(i)], and the [%d] of [fmt.Sprintf]: the decimal digits,
    after a minus sign for a negative number. *)
Definition Itoa (i : Z) : string :=
  DecimalString.NilZero.string_of_int (Z.to_int i).

(** [r.Res()]. *)
Definition Res (r : Response) : string * option error :=
  (ResultString r, Error r).

(** [r.Err()]. *)
Definition Err (r : Response) : option error := Error r.

(** [r.Val()]. *)
Definition Val (r : Response) : string * option error := (Value r, Error r).

(** What [Command] makes of the third group of a response line:
    [strings.TrimSuffix(strings.TrimPrefix(strings.TrimSpace(p3), "("), ")")]. *)
Definition valueOf (p3 : string) : string :=
  TrimSuffix (TrimPrefix (TrimSpace p3) "(") ")".

(** [a.Close()]; [closeConn] is what [a.conn.Close()] answers.  It returns
    the error and the session as the call leaves it. *)
Definition Close (a : AGI) (closeConn : Conn -> option error)
    : option error * AGI :=
  match conn a with
  | Some c =>
      (closeConn c,
       {| Variables := Variables a; eagi := eagi a; w := w a; conn := None |})
  | None => (None, a)
  end.

(** [State], with the constants the package names. *)
Definition State : Type := Z.

Definition StateDown : State := 0%Z.

Definition StateUp : State := 6%Z.

(** [a.Answer()]. *)
Definition Answer (a : AGI) (rd : string) : option error :=
  Err (Command a rd ["ANSWER"]).

(** [a.Hangup()]. *)
Definition Hangup (a : AGI) (rd : string) : option error :=
  Err (Command a rd ["HANGUP"]).

(** [a.Status()]; the name [Status] is the field of [Response]. *)
Definition ChannelStatus (a : AGI) (rd : string) : State * option error :=
  let '(r, err) := Val (Command a rd ["CHANNEL STATUS"]) in
  match err with
  | Some _ => (StateDown, err)
  | None =>
      let '(state, err) := Atoi r in
      match err with
      | Some _ => (StateDown, Some (Errorf ("Failed to parse state " +:+ r)))
      | None => (state, None)
      end
  end.

(** [a.Exec(cmd...)]. *)
Definition Exec (a : AGI) (rd : string) (cmd : list string)
    : string * option error :=
  Val (Command a rd ("EXEC" :: cmd)).

(** [a.Get(key)]. *)
Definition Get (a : AGI) (rd : string) (key : string) : string * option error :=
  Val (Command a rd ["GET VARIABLE"; key]).

(** [a.Set(key, val)]. *)
Definition SetVariable (a : AGI) (rd : string) (key val : string)
    : option error :=
  Err (Command a rd ["SET VARIABLE"; key; val]).

(** Two double quotes, which hold the place of an empty argument. *)
Definition emptyQuotes : string := String "034" (String "034" EmptyString).

(** [a.StreamFile(name, escapeDigits, offset)]. *)
Definition StreamFile (a : AGI) (rd : string) (name escapeDigits : string)
    (offset : Z) : string * option error :=
  let escapeDigits :=
    match escapeDigits with
    | EmptyString => emptyQuotes
    | _ => escapeDigits
    end in
  Val (Command a rd ["STREAM FILE"; name; escapeDigits; Itoa offset]).

(** [rune(i)]: the conversion of an [int] to [int32]. *)
Definition rune (i : Z) : Z := ((i + 2 ^ 31) mod 2 ^ 32 - 2 ^ 31)%Z.

Definition byteOf (z : Z) : ascii := ascii_of_N (Z.to_N z).

(** [string(i)] for an [int]: the UTF-8 encoding of the code point [i], and
    of U+FFFD when [i] is not a valid code point. *)
Definition stringOfInt (i : Z) : string :=
  if ((i <? 0) || (1114111 <? i) || ((55296 <=? i) && (i <=? 57343)))%Z
  then String (byteOf 239) (String (byteOf 191) (String (byteOf 189) EmptyString))
  else if (i <? 128)%Z then String (byteOf i) EmptyString
  else if (i <? 2048)%Z then
    String (byteOf (192 + i / 64))
      (String (byteOf (128 + i mod 64)) EmptyString)
  else if (i <? 65536)%Z then
    String (byteOf (224 + i / 4096))
      (String (byteOf (128 + (i / 64) mod 64))
         (String (byteOf (128 + i mod 64)) EmptyString))
  else
    String (byteOf (240 + i / 262144))
      (String (byteOf (128 + (i / 4096) mod 64))
         (String (byteOf (128 + (i / 64) mod 64))
            (String (byteOf (128 + i mod 64)) EmptyString))).

(** The operations that format a [time.Duration] (a count of nanoseconds)
    or test a rune for printability.  [toMSec], of the package, goes
    through [float64] ([dur.Seconds()]) and is a parameter here; so are the
    tables of [strconv.IsPrint] for the runes above U+00FF. *)
Section Formatting.

Variable toMSec : Z -> string.
Variable isPrintWide : Z -> bool.

(** [strconv.IsPrint(r)]. *)
Definition IsPrint (r : Z) : bool :=
  if (r <=? 255)%Z then
    if ((32 <=? r) && (r <=? 126))%Z then true
    else if ((161 <=? r) && (r <=? 255))%Z then negb (r =? 173)%Z
    else false
  else isPrintWide r.

(** [a.GetData(sound, timeout, maxdigits)]. *)
Definition GetData (a : AGI) (rd : string) (sound : string) (timeout : Z)
    (maxdigits : Z) : string * option error :=
  let sound :=
    match sound with
    | EmptyString => "silence/1"
    | _ => sound
    end in
  let resp :=
    Command a rd ["GET DATA"; sound; toMSec timeout; Itoa maxdigits] in
  Res resp.

(** [a.WaitForDigit(timeout)]. *)
Definition WaitForDigit (a : AGI) (rd : string) (timeout : Z)
    : string * option error :=
  let resp := Command a rd ["WAIT FOR DIGIT"; toMSec timeout] in
  let resp := withResultString EmptyString resp in
  let resp :=
    match Error resp with
    | None =>
        if IsPrint (rune (Result resp))
        then withResultString (stringOfInt (Result resp)) resp
        else resp
    | Some _ => resp
    end in
  Res resp.

End Formatting.

(** ** Several commands in a row

    [rds] holds, in order, what the reader delivers to the scanner of each
    call that gets to read; a call whose write fails creates no scanner and
    uses none of it, and past the end of [rds] the reader has nothing. *)

Definition CommandS (a : AGI) (cmd : list string) (rds : list string)
    : Response * list string :=
  match w a (Join cmd " " +:+ newline) with
  | Some _ => (Command a EmptyString cmd, rds)
  | None => (Command a (List.hd EmptyString rds) cmd, List.tl rds)
  end.

(** [a.Get(key)] in a sequence. *)
Definition GetS (a : AGI) (key : string) (rds : list string)
    : (string * option error) * list string :=
  let '(resp, rds) := CommandS a ["GET VARIABLE"; key] rds in
  (Val resp, rds).

(** [RecognitionResult]; its fields [Status], [Cause], [Result] carry the
    prefix [Recog] here. *)
Record RecognitionResult : Type := mkRecognitionResult {
  RecogStatus : string;
  RecogCause : Z;
  RecogResult : string;
}.

(** [RecognitionInterpretation]. *)
Record RecognitionInterpretation : Type := mkRecognitionInterpretation {
  Confidence : Z;
  Input : string;
  Grammar : string;
}.

(** [a.getRecognitionResult(combo)]. *)
Definition getRecognitionResult (a : AGI) (combo : bool) (rds : list string)
    : (RecognitionResult * option error) * list string :=
  let statusVar := if combo then "RECOG_STATUS" else "RECOGSTATUS" in
  let '((status, err), rds) := GetS a statusVar rds in
  let res :=
    {| RecogStatus := status; RecogCause := 0; RecogResult := EmptyString |} in
  match err with
  | Some _ => ((res, Wrap err "failed to retrieve status"), rds)
  | None =>
      let '((cause, err), rds) := GetS a "RECOG_COMPLETION_CAUSE" rds in
      match err with
      | Some _ => ((res, Wrap err "failed to retrieve cause"), rds)
      | None =>
          let '(n, err) := Atoi cause in
          let res :=
            {| RecogStatus := status; RecogCause := n;
               RecogResult := EmptyString |} in
          match err with
          | Some _ =>
              ((res,
                Wrap err
                  ("failed to parse cause (" +:+ cause +:+ ") as an integer")),
               rds)
          | None =>
              let '((result, err), rds) := GetS a "RECOG_RESULT" rds in
              let res :=
                {| RecogStatus := status; RecogCause := n;
                   RecogResult := result |} in
              match err with
              | Some _ => ((res, Wrap err "failed to retrieve result"), rds)
              | None => ((res, None), rds)
              end
          end
      end
  end.

(** [a.RecognitionInput(index)]. *)
Definition RecognitionInput (a : AGI) (index : Z) (rds : list string)
    : (string * option error) * list string :=
  GetS a ("RECOG_INPUT(" +:+ Itoa index +:+ ")") rds.

(** [a.RecognitionConfidence(index)]. *)
Definition RecognitionConfidence (a : AGI) (index : Z) (rds : list string)
    : (Z * option error) * list string :=
  let '((out, err), rds) :=
    GetS a ("RECOG_CONFIDENCE(" +:+ Itoa index +:+ ")") rds in
  match err with
  | Some _ => ((0%Z, err), rds)
  | None => (Atoi out, rds)
  end.

(** [a.RecognitionGrammar(index)]. *)
Definition RecognitionGrammar (a : AGI) (index : Z) (rds : list string)
    : (string * option error) * list string :=
  GetS a ("RECOG_GRAMMAR(" +:+ Itoa index +:+ ")") rds.

(** [a.RecognitionInterpretation(index)]. *)
Definition RecognitionInterpretationOf (a : AGI) (index : Z)
    (rds : list string)
    : (RecognitionInterpretation * option error) * list string :=
  let '((input, err), rds) := RecognitionInput a index rds in
  let ret := {| Confidence := 0; Input := input; Grammar := EmptyString |} in
  match err with
  | Some _ => ((ret, err), rds)
  | None =>
      let '((confidence, err), rds) := RecognitionConfidence a index rds in
      let ret :=
        {| Confidence := confidence; Input := input; Grammar := EmptyString |} in
      match err with
      | Some _ => ((ret, err), rds)
      | None =>
          let '((grammar, err), rds) := RecognitionGrammar a index rds in
          let ret :=
            {| Confidence := confidence; Input := input; Grammar := grammar |} in
          ((ret, err), rds)
      end
  end.

(** ** What the peer sends *)







(** The reader delivers, first, a line with status 200, an integer result
    token and the parenthesised value [V]. *)
Definition answers (rd V : string) : Prop :=
  exists (rest R : string) (n : Z),
    Scan rd = Some ("200 result=" +:+ R +:+ " (" +:+ V +:+ ")", rest)
    /\ isResultToken R = true /\ Atoi R = (n, None).

(** * Properties of the operations *)

(** ** Numbers *)

Lemma int64_range (z : Z) : (- 2 ^ 63 <= int64 z < 2 ^ 63)%Z.
Proof.
  unfold int64.
  pose proof (Z.mod_pos_bound (z + 2 ^ 63) (2 ^ 64) eq_refl). lia.
Qed.

Lemma atoiDigits_bound (s : string) (n0 n : Z) :
  atoiDigits s n0 = Some n -> (0 <= n0)%Z ->
  (0 <= n < (n0 + 1) * 10 ^ Z.of_nat (String.length s))%Z.
Proof.
  revert n0. induction s as [|c s IH]; intros n0; cbn [atoiDigits String.length].
  - intros [= <-] H0. cbn. lia.
  - destruct (isDigit c) eqn:Hc; [|discriminate].
    intros Hs H0. apply byteIn_bounds in Hc.
    assert (Hd : (0 <= digitVal c <= 9)%Z) by (unfold digitVal; lia).
    apply IH in Hs; [|lia].
    rewrite Nat2Z.inj_succ, Z.pow_succ_r by lia.
    assert (Hp : (0 < 10 ^ Z.of_nat (String.length s))%Z)
      by (apply Z.pow_pos_nonneg; lia).
    nia.
Qed.

(** [Atoi] always returns a value an [int] holds. *)
Lemma Atoi_range (s : string) : (- 2 ^ 63 <= fst (Atoi s) < 2 ^ 63)%Z.
Proof.
  unfold Atoi.
  destruct ((0 <? String.length s) && (String.length s <? 19)) eqn:Hlen.
  - apply andb_true_iff in Hlen as [_ Hlen]. apply Nat.ltb_lt in Hlen.
    destruct s as [|c r]; [cbn; lia|].
    destruct (_ && _); [cbn; lia|].
    destruct (atoiDigits _ 0) as [n|] eqn:Hn; [|cbn; lia].
    apply atoiDigits_bound in Hn; [|lia].
    assert (Hbody : String.length
                      (if ((c =? "-") || (c =? "+"))%char then r else String c r)
                    <= 18).
    { destruct (_ || _); cbn [String.length] in *; lia. }
    assert (Hpow : (10 ^ Z.of_nat
                      (String.length
                         (if ((c =? "-") || (c =? "+"))%char
                          then r else String c r))
                    <= 10 ^ 18)%Z)
      by (apply Z.pow_le_mono_r; lia).
    cbn [fst]. destruct (c =? "-")%char; lia.
  - clear Hlen. destruct (ParseInt s) as [i64 err] eqn:Hparse. cbn [fst].
    unfold ParseInt in Hparse. destruct s as [|c r].
    + injection Hparse as <- _. lia.
    + destruct (ParseUint _) as [un [[]|]].
      * injection Hparse as <- _. lia.
      * destruct (negb _ && _); [injection Hparse as <- _; lia|].
        destruct (_ && _); [injection Hparse as <- _; lia|].
        injection Hparse as <- _.
        destruct (c =? "-")%char; apply int64_range.
      * destruct (negb _ && _); [injection Hparse as <- _; lia|].
        destruct (_ && _); [injection Hparse as <- _; lia|].
        injection Hparse as <- _.
        destruct (c =? "-")%char; apply int64_range.
Qed.

(** ** What every response satisfies *)

Lemma digitVal_bounds (c : ascii) : isDigit c = true -> (0 <= digitVal c <= 9)%Z.
Proof. intros H. apply byteIn_bounds in H. unfold digitVal. lia. Qed.

Lemma digit_not_hangup (d : ascii) (s : string) :
  isDigit d = true -> HasPrefix (String d s) "HANGUP" = false.
Proof.
  intros H. rewrite HasPrefix_cons, eqb_code. apply byteIn_bounds in H.
  replace (code "H" =? code d)%N with false; [reflexivity|].
  symmetry. apply N.eqb_neq. change (code "H") with 72%N. lia.
Qed.

(** The response to a line with status 200 and an integer result token. *)
Lemma Command_ok_line (a : AGI) (cmd : list string)
    (rd raw rest p2 p3 : string) (n : Z) :
  w a (Join cmd " " +:+ newline) = None ->
  Scan rd = Some (raw, rest) ->
  ResponseLine raw "200" p2 p3 ->
  Atoi p2 = (n, None) ->
  Command a rd cmd
  = {| Error := None; Status := 200; Result := n;
       ResultString := p2; Value := valueOf p3 |}.
Proof.
  intros Hw Hscan Hline Hn.
  rewrite (Command_response_line a cmd Hw rd raw rest "200" p2 p3 Hscan Hline).
  unfold parsedResponse, checkStatus. rewrite Hn. reflexivity.
Qed.

(** X1. [Command] returns a nil error exactly when the command line was
    written and the first line the scanner yields is a response line with
    status 200 and a result token that is an integer; for such a line the
    response carries that status, the integer, the token and the value of
    the trailing segment. *)
Theorem Command_success_iff (a : AGI) (rd : string) (cmd : list string) :
  (Error (Command a rd cmd) = None <->
   w a (Join cmd " " +:+ newline) = None
   /\ exists (raw rest p2 p3 : string) (n : Z),
        Scan rd = Some (raw, rest)
        /\ ResponseLine raw "200" p2 p3
        /\ Atoi p2 = (n, None))
  /\ (forall (raw rest p2 p3 : string) (n : Z),
        w a (Join cmd " " +:+ newline) = None ->
        Scan rd = Some (raw, rest) ->
        ResponseLine raw "200" p2 p3 ->
        Atoi p2 = (n, None) ->
        Command a rd cmd
        = {| Error := None; Status := 200; Result := n;
             ResultString := p2; Value := valueOf p3 |}).
Proof.
  split; [split|].
  - intros Herr.
    destruct (w a (Join cmd " " +:+ newline)) as [e|] eqn:Hw.
    { unfold Command in Herr. rewrite Hw in Herr. discriminate Herr. }
    split; [reflexivity|].
    destruct (Scan rd) as [[raw rest]|] eqn:Hscan.
    2:{ unfold Command in Herr. rewrite Hw, Hscan in Herr. discriminate Herr. }
    destruct raw as [|c raw].
    { unfold Command in Herr. rewrite Hw, Hscan in Herr. discriminate Herr. }
    assert (Hne : String c raw <> EmptyString) by discriminate.
    rewrite (Command_line a cmd Hw rd _ rest Hscan Hne) in Herr.
    unfold parseResponse in Herr.
    destruct (HasPrefix (String c raw) "HANGUP"); [discriminate Herr|].
    destruct (FindStringSubmatch (String c raw)) as [[[p1 p2] p3]|] eqn:Hfind;
      [|discriminate Herr].
    apply FindStringSubmatch_iff in Hfind as Hline.
    destruct Hline as (d1 & d2 & d3 & sp & Hraw & Hp1 & H1 & H2 & H3 & Hrest).
    rewrite Hp1, (Atoi_three_digits d1 d2 d3 H1 H2 H3) in Herr.
    destruct (Atoi p2) as [n [e|]] eqn:Hn.
    { unfold checkStatus in Herr. cbn in Herr.
      destruct (_ =? 200)%Z; discriminate Herr. }
    unfold checkStatus in Herr. cbn [withValue withResult withResultString
      withStatus emptyResponse Status Error Result ResultString Value] in Herr.
    destruct (_ =? 200)%Z eqn:H200; [|discriminate Herr].
    apply Z.eqb_eq in H200.
    apply (three_digits_200 d1 d2 d3 H1 H2 H3) in H200.
    rewrite H200 in Hp1. subst p1.
    apply FindStringSubmatch_iff in Hfind.
    exists (String c raw), rest, p2, p3, n.
    split; [reflexivity|]. split; [exact Hfind|]. exact Hn.
  - intros (Hw & raw & rest & p2 & p3 & n & Hscan & Hline & Hn).
    now rewrite (Command_ok_line a cmd rd raw rest p2 p3 n Hw Hscan Hline Hn).
  - intros raw rest p2 p3 n. apply Command_ok_line.
Qed.

Lemma Command_success_iff_witness :
  let a := New EmptyString (fun _ => None) in
  let rd := "200 result=1 (speech)" +:+ newline in
  Error (Command a rd ["GET VARIABLE"; "RECOG_STATUS"]) = None
  /\ Command a rd ["GET VARIABLE"; "RECOG_STATUS"]
     = {| Error := None; Status := 200; Result := 1;
          ResultString := "1"; Value := valueOf " (speech)" |}.
Proof.
  intros a rd.
  destruct (Command_success_iff a rd ["GET VARIABLE"; "RECOG_STATUS"])
    as [[_ Hif] Hresp].
  assert (Hline : ResponseLine "200 result=1 (speech)" "200" "1" " (speech)")
    by (apply FindStringSubmatch_iff; reflexivity).
  split.
  - apply Hif. split; [reflexivity|].
    exists "200 result=1 (speech)", EmptyString, "1", " (speech)", 1%Z.
    repeat split. exact Hline.
  - apply (Hresp "200 result=1 (speech)" EmptyString "1" " (speech)" 1%Z);
      [reflexivity|reflexivity|exact Hline|reflexivity].
Defined.

(** X2. Whatever is read, the response holds a status between 0 and 999
    and a result an [int] holds. *)
Theorem Command_response_bounds (a : AGI) (rd : string) (cmd : list string) :
  (0 <= Status (Command a rd cmd) <= 999)%Z
  /\ (- 2 ^ 63 <= Result (Command a rd cmd) < 2 ^ 63)%Z.
Proof.
  unfold Command.
  destruct (w a (Join cmd " " +:+ newline)) as [e|]; [cbn; lia|].
  destruct (Scan rd) as [[[|c raw] rest]|]; [cbn; lia| |cbn; lia].
  unfold parseResponse.
  destruct (HasPrefix (String c raw) "HANGUP"); [cbn; lia|].
  destruct (FindStringSubmatch (String c raw)) as [[[p1 p2] p3]|] eqn:Hfind;
    [|cbn; lia].
  apply FindStringSubmatch_iff in Hfind.
  destruct Hfind as (d1 & d2 & d3 & sp & _ & -> & H1 & H2 & H3 & _).
  rewrite (Atoi_three_digits d1 d2 d3 H1 H2 H3).
  pose proof (digitVal_bounds d1 H1). pose proof (digitVal_bounds d2 H2).
  pose proof (digitVal_bounds d3 H3). pose proof (Atoi_range p2) as Hrange.
  destruct (Atoi p2) as [n [e|]]; cbn [fst] in Hrange;
    match goal with
    | |- context [checkStatus ?r] =>
        destruct (checkStatus_fields r) as (-> & -> & _)
    end; cbn; lia.
Qed.

(** ** The command line *)

Lemma Join_cons (e : string) (rest : list string) (sep : string) :
  rest <> [] -> Join (e :: rest) sep = e +:+ sep +:+ Join rest sep.
Proof. destruct rest; [congruence|reflexivity]. Qed.

Lemma Join_space_token (pre post : list string) (s t : string) :
  Join (pre ++ (s +:+ " " +:+ t) :: post) " "
  = Join (pre ++ s :: t :: post) " ".
Proof.
  induction pre as [|e pre IH].
  - cbn [app]. destruct post as [|p post].
    + reflexivity.
    + rewrite !Join_cons by discriminate.
      now rewrite !append_assoc.
  - cbn [app]. rewrite !Join_cons by (destruct pre; discriminate).
    now rewrite IH.
Qed.

(** X3. The arguments of a command are joined with single spaces and
    nothing marks where one ends: an argument that holds a space is sent,
    and answered, as the two arguments either side of the space would
    be. *)
Theorem Command_argument_with_space (a : AGI) (rd : string)
    (pre post : list string) (s t : string) :
  Join (pre ++ (s +:+ " " +:+ t) :: post) " "
  = Join (pre ++ s :: t :: post) " "
  /\ Command a rd (pre ++ (s +:+ " " +:+ t) :: post)
     = Command a rd (pre ++ s :: t :: post).
Proof.
  split; [apply Join_space_token|].
  unfold Command. now rewrite Join_space_token.
Qed.

(** ** Result tokens the grammar refuses *)

Lemma cutSign_token_byte (tok : string) (c : ascii) (tail : string) :
  isResultToken tok = true -> (c =? "-")%char = false ->
  exists sign body : string,
    cutSign (tok +:+ String c tail) = (sign, body +:+ String c tail)
    /\ strAll isAlnum body = true.
Proof.
  intros Htok Hc. destruct tok as [|b r].
  - exists EmptyString, EmptyString. cbn. now rewrite Hc.
  - cbn in Htok |- *. destruct (b =? "-")%char.
    + exists "-", r. now split.
    + exists EmptyString, (String b r). now split.
Qed.

Lemma FindStringSubmatch_token_byte (d1 d2 d3 : ascii) (tok : string)
    (c : ascii) (tail : string) :
  isResultToken tok = true ->
  isAlnum c = false -> isReSpace c = false -> (c =? "-")%char = false ->
  FindStringSubmatch
    (String d1 (String d2 (String d3
       (" result=" +:+ tok +:+ String c tail))))
  = None.
Proof.
  intros Htok Halnum Hspace Hminus.
  change (" result=" +:+ tok +:+ String c tail)
    with (String " " ("result=" +:+ (tok +:+ String c tail))).
  unfold FindStringSubmatch.
  destruct (isDigit d1 && isDigit d2 && isDigit d3 && isReSpace " "
            && HasPrefix ("result=" +:+ tok +:+ String c tail) "result=");
    [|reflexivity].
  change 7 with (String.length "result=").
  rewrite (strDrop_append "result=" (tok +:+ String c tail)).
  destruct (cutSign_token_byte tok c tail Htok Hminus)
    as (sign & body & -> & Hbody).
  rewrite (spanAlnum_append body (String c tail) Hbody Halnum).
  now rewrite Hspace.
Qed.

(** X4. A result token is a minus sign and letters and digits, and nothing
    else: when any other byte that is not white space follows it (the
    star or the pound key of a telephone, say), the line is no response
    line and the call fails with the parse error, whatever the status. *)
Theorem Command_result_token_other_byte (a : AGI) (cmd : list string)
    (rd rest : string) (d1 d2 d3 : ascii) (tok : string) (c : ascii)
    (tail : string) :
  w a (Join cmd " " +:+ newline) = None ->
  isDigit d1 = true ->
  isResultToken tok = true ->
  isAlnum c = false -> isReSpace c = false -> (c =? "-")%char = false ->
  Scan rd
  = Some (String d1 (String d2 (String d3
            (" result=" +:+ tok +:+ String c tail))), rest) ->
  Command a rd cmd
  = {| Error :=
         Some (Errorf ("failed to parse result: "
                       +:+ String d1 (String d2 (String d3
                             (" result=" +:+ tok +:+ String c tail)))));
       Status := 0; Result := 0;
       ResultString := EmptyString; Value := EmptyString |}.
Proof.
  intros Hw H1 Htok Halnum Hspace Hminus Hscan.
  rewrite (Command_line a cmd Hw rd _ rest Hscan) by discriminate.
  unfold parseResponse.
  rewrite (digit_not_hangup d1 _ H1).
  now rewrite (FindStringSubmatch_token_byte d1 d2 d3 tok c tail
                 Htok Halnum Hspace Hminus).
Qed.

Lemma Command_result_token_other_byte_witness :
  Command exampleSession ("200 result=12# (timeout)" +:+ newline)
    ["GET DATA"; "beep"; "5000"; "4"]
  = {| Error :=
         Some (Errorf ("failed to parse result: "
                       +:+ String "2" (String "0" (String "0"
                             (" result=" +:+ "12" +:+ String "#" " (timeout)")))));
       Status := 0; Result := 0;
       ResultString := EmptyString; Value := EmptyString |}.
Proof.
  exact (Command_result_token_other_byte exampleSession
           ["GET DATA"; "beep"; "5000"; "4"]
           ("200 result=12# (timeout)" +:+ newline) EmptyString
           "2" "0" "0" "12" "#" " (timeout)"
           eq_refl eq_refl eq_refl eq_refl eq_refl eq_refl eq_refl).
Defined.

(** ** Values *)





Lemma valueOf_parens (V : string) : valueOf (" (" +:+ V +:+ ")") = V.
Proof.
  unfold valueOf.
  change (" (" +:+ V +:+ ")") with (String " " ("(" +:+ V +:+ ")")).
  rewrite TrimSpace_skip by reflexivity.
  rewrite TrimSpace_parens, (TrimPrefix_append "(" (V +:+ ")")).
  apply TrimSuffix_append.
Qed.

(** The response lines with status 200. *)
Lemma ResponseLine_200 (R p3 : string) :
  isResultToken R = true -> isTrailing p3 = true ->
  ResponseLine ("200 result=" +:+ R +:+ p3) "200" R p3.
Proof.
  intros HR Hp3. exists "2"%char, "0"%char, "0"%char, " "%char.
  now repeat split.
Qed.

Lemma Scan_trailing (rd rest head p3 : string) :
  Scan rd = Some (head +:+ p3, rest) -> strAll isDot p3 = true.
Proof.
  intros Hscan. apply Scan_no_newline in Hscan.
  rewrite strAll_append in Hscan. now apply andb_true_iff in Hscan as [_ H].
Qed.

Lemma Command_answers (a : AGI) (cmd : list string) (rd V : string) :
  w a (Join cmd " " +:+ newline) = None ->
  answers rd V ->
  exists (R : string) (n : Z),
    Command a rd cmd
    = {| Error := None; Status := 200; Result := n;
         ResultString := R; Value := V |}.
Proof.
  intros Hw (rest & R & n & Hscan & HR & Hn). exists R, n.
  assert (Hdot : strAll isDot (" (" +:+ V +:+ ")") = true).
  { apply (Scan_trailing rd rest ("200 result=" +:+ R)).
    now rewrite append_assoc. }
  rewrite (Command_ok_line a cmd rd _ rest R (" (" +:+ V +:+ ")") n Hw Hscan
             (ResponseLine_200 R (" (" +:+ V +:+ ")") HR Hdot) Hn).
  now rewrite valueOf_parens.
Qed.

(** ** One command *)

(** X5. For a 200 response with an integer result token, [Get] returns
    the parenthesised value as it stands; such a response without a value,
    which is what a variable that is not set gets, gives the empty string
    and no error, as a variable set to the empty string does. *)
Theorem Get_value_or_empty (a : AGI) (key : string) :
  w a ("GET VARIABLE " +:+ key +:+ newline) = None ->
  (forall rd V : string, answers rd V -> Get a rd key = (V, None))
  /\ (forall (rd rest R : string) (n : Z),
        isResultToken R = true -> Atoi R = (n, None) ->
        Scan rd = Some ("200 result=" +:+ R, rest) ->
        Get a rd key = (EmptyString, None)
        /\ forall rd' : string, answers rd' EmptyString ->
             Get a rd' key = Get a rd key).
Proof.
  intros Hw.
  assert (Hw' : w a (Join ["GET VARIABLE"; key] " " +:+ newline) = None).
  { cbn [Join]. now rewrite append_assoc. }
  assert (Hvalue : forall rd V : string, answers rd V -> Get a rd key = (V, None)).
  { intros rd V Hrd.
    destruct (Command_answers a ["GET VARIABLE"; key] rd V Hw' Hrd)
      as (R & n & E).
    unfold Get. now rewrite E. }
  split; [exact Hvalue|].
  intros rd rest R n HR Hn Hscan.
  assert (E : Get a rd key = (EmptyString, None)).
  { pose proof (ResponseLine_200 R EmptyString HR eq_refl) as Hline.
    rewrite append_empty_r in Hline. unfold Get.
    now rewrite (Command_ok_line a _ rd ("200 result=" +:+ R) rest R
                   EmptyString n Hw' Hscan Hline Hn). }
  split; [exact E|].
  intros rd' Hrd'. now rewrite E, (Hvalue rd' EmptyString Hrd').
Qed.

Lemma Get_value_or_empty_witness :
  Get exampleSession ("200 result=1 (SIP/100-0000002a)" +:+ newline) "CHANNEL"
  = ("SIP/100-0000002a", None)
  /\ Get exampleSession ("200 result=0" +:+ newline) "CHANNEL"
     = (EmptyString, None)
  /\ Get exampleSession ("200 result=1 ()" +:+ newline) "CHANNEL"
     = Get exampleSession ("200 result=0" +:+ newline) "CHANNEL".
Proof.
  destruct (Get_value_or_empty exampleSession "CHANNEL" eq_refl)
    as [Hvalue Hempty].
  destruct (Hempty ("200 result=0" +:+ newline) EmptyString "0" 0%Z
              eq_refl eq_refl eq_refl) as [Hunset Hsame].
  split; [|split].
  - apply Hvalue. exists EmptyString, "1", 1%Z. repeat split.
  - exact Hunset.
  - apply Hsame. exists EmptyString, "1", 1%Z. repeat split.
Defined.

(** X6. [Status] takes the channel state from the value of the response,
    not from its result code: a 200 response with an integer result token
    whose value is the integer [st] gives the state [st], whatever it is,
    and such a response that carries no value fails with the state-parse
    error. *)
Theorem ChannelStatus_reads_value (a : AGI) :
  w a ("CHANNEL STATUS" +:+ newline) = None ->
  (forall (rd V : string) (st : Z),
     answers rd V -> Atoi V = (st, None) ->
     ChannelStatus a rd = (st, None))
  /\ (forall (rd rest R : string) (n : Z),
        isResultToken R = true -> Atoi R = (n, None) ->
        Scan rd = Some ("200 result=" +:+ R, rest) ->
        ChannelStatus a rd
        = (StateDown, Some (Errorf "Failed to parse state "))).
Proof.
  intros Hw. split.
  - intros rd V st Hrd HV.
    destruct (Command_answers a ["CHANNEL STATUS"] rd V Hw Hrd) as (R & n & E).
    unfold ChannelStatus. rewrite E. cbn [Val Value Error]. now rewrite HV.
  - intros rd rest R n HR Hn Hscan.
    pose proof (ResponseLine_200 R EmptyString HR eq_refl) as Hline.
    rewrite append_empty_r in Hline. unfold ChannelStatus.
    now rewrite (Command_ok_line a ["CHANNEL STATUS"] rd ("200 result=" +:+ R)
                   rest R EmptyString n Hw Hscan Hline Hn).
Qed.

Lemma ChannelStatus_reads_value_witness :
  ChannelStatus exampleSession ("200 result=0 (6)" +:+ newline) = (StateUp, None)
  /\ ChannelStatus exampleSession ("200 result=6" +:+ newline)
     = (StateDown, Some (Errorf "Failed to parse state ")).
Proof.
  destruct (ChannelStatus_reads_value exampleSession eq_refl) as [Hvalue Hnone].
  split.
  - apply (Hvalue _ "6" 6%Z); [|reflexivity].
    exists EmptyString, "0", 0%Z. repeat split.
  - apply (Hnone _ EmptyString "6" 6%Z); reflexivity.
Defined.

(** Decide the comparisons of integers in the goal from the bounds at
    hand. *)
Ltac decide_bounds :=
  repeat match goal with
         | |- context [(?x <=? ?y)%Z] => destruct (Z.leb_spec x y); try lia
         | |- context [(?x <? ?y)%Z] => destruct (Z.ltb_spec x y); try lia
         | |- context [(?x =? ?y)%Z] => destruct (Z.eqb_spec x y); try lia
         end.

Lemma rune_small (n : Z) : (- 2 ^ 31 <= n < 2 ^ 31)%Z -> rune n = n.
Proof. intros H. unfold rune. rewrite Z.mod_small by lia. lia. Qed.

(** X7. [WaitForDigit] turns the result code of a 200 response into the
    character with that code: a code from 32 to 126 gives that one
    character, and a smaller code down to -2^31 (0 for a timeout, -1 for a
    failure) gives the empty string; neither is an error, and the result
    token itself is not returned. *)
Theorem WaitForDigit_character (toMSec : Z -> string)
    (isPrintWide : Z -> bool) (a : AGI) (rd raw rest p2 p3 : string)
    (timeout n : Z) :
  w a (Join ["WAIT FOR DIGIT"; toMSec timeout] " " +:+ newline) = None ->
  Scan rd = Some (raw, rest) ->
  ResponseLine raw "200" p2 p3 ->
  Atoi p2 = (n, None) ->
  (- 2 ^ 31 <= n <= 126)%Z ->
  WaitForDigit toMSec isPrintWide a rd timeout
  = (if (32 <=? n)%Z then String (byteOf n) EmptyString else EmptyString,
     None).
Proof.
  intros Hw Hscan Hline Hn Hrange. unfold WaitForDigit.
  rewrite (Command_ok_line a _ rd raw rest p2 p3 n Hw Hscan Hline Hn).
  cbn [withResultString Error Result ResultString Status Value].
  rewrite rune_small by lia. unfold IsPrint, stringOfInt.
  decide_bounds; reflexivity.
Qed.

Lemma WaitForDigit_character_witness :
  WaitForDigit (fun _ => "5000") (fun _ => false) exampleSession
    ("200 result=53" +:+ newline) 5000000000
  = (if (32 <=? 53)%Z then String (byteOf 53) EmptyString else EmptyString,
     None)
  /\ WaitForDigit (fun _ => "5000") (fun _ => false) exampleSession
       ("200 result=0" +:+ newline) 5000000000
     = (if (32 <=? 0)%Z then String (byteOf 0) EmptyString else EmptyString,
        None).
Proof.
  split.
  - apply (WaitForDigit_character (fun _ => "5000") (fun _ => false)
             exampleSession ("200 result=53" +:+ newline) "200 result=53"
             EmptyString "53" EmptyString 5000000000 53%Z).
    + reflexivity.
    + reflexivity.
    + apply FindStringSubmatch_iff. reflexivity.
    + reflexivity.
    + lia.
  - apply (WaitForDigit_character (fun _ => "5000") (fun _ => false)
             exampleSession ("200 result=0" +:+ newline) "200 result=0"
             EmptyString "0" EmptyString 5000000000 0%Z).
    + reflexivity.
    + reflexivity.
    + apply FindStringSubmatch_iff. reflexivity.
    + reflexivity.
    + lia.
Defined.









(** ** Closing *)

(** X10. [Close] closes the connection of a session once: the session it
    leaves has none and keeps its variables, a second [Close] returns nil
    and changes nothing, whatever the connection would answer, and a
    session that never had a connection is left as it is. *)
Theorem Close_once (a : AGI) (closeConn closeAgain : Conn -> option error) :
  let closed := snd (Close a closeConn) in
  conn closed = None
  /\ Variables closed = Variables a
  /\ w closed = w a
  /\ Close closed closeAgain = (None, closed)
  /\ (forall c : Conn, conn a = Some c -> fst (Close a closeConn) = closeConn c)
  /\ (conn a = None -> Close a closeConn = (None, a)).
Proof.
  unfold Close. destruct (conn a) as [c|] eqn:Hconn; cbn.
  - repeat split; try congruence; now intros c' [= <-].
  - rewrite Hconn. repeat split; congruence.
Qed.

(** ** The preamble as the server writes it *)











(** ** The two revisions of [Command] and of the preamble loop *)

Lemma FindStringSubmatch_hangup (raw : string) :
  HasPrefix raw "HANGUP" = true -> FindStringSubmatch raw = None.
Proof.
  intros Hprefix.
  destruct (FindStringSubmatch raw) as [[[p1 p2] p3]|] eqn:Hfind; [|reflexivity].
  apply FindStringSubmatch_iff, ResponseLine_not_hangup in Hfind as [_ Hno].
  congruence.
Qed.

Lemma checkStatus_error (r : Response) :
  Error (checkStatus r)
  = if (Status r =? 200)%Z then Error r
    else Some (Errorf "Non-200 status code").
Proof. unfold checkStatus. now destruct (Status r =? 200)%Z. Qed.

(** X12. Whenever either revision of Command succeeds, the other returns the
    same response: the hangup test and the continued parse after a bad
    result token change failures only. *)
Theorem Command_revisions_agree_on_success (a : AGI) (rd : string)
    (cmd : list string) :
  Error (Command a rd cmd) = None \/ Error (Earlier.Command a rd cmd) = None ->
  Earlier.Command a rd cmd = Command a rd cmd.
Proof.
  unfold Command, Earlier.Command.
  destruct (w a (Join cmd " " +:+ newline)) as [err|]; [reflexivity|].
  destruct (Scan rd) as [[[|c raw] rest]|]; [reflexivity| |reflexivity].
  unfold parseResponse, Earlier.parseResponse.
  destruct (HasPrefix (String c raw) "HANGUP") eqn:Hprefix.
  - rewrite (FindStringSubmatch_hangup _ Hprefix).
    intros [H | H]; discriminate H.
  - destruct (FindStringSubmatch (String c raw)) as [[[p1 p2] p3]|];
      [|reflexivity].
    destruct (Atoi p1) as [status [e|]]; [reflexivity|].
    destruct (Atoi p2) as [result [e|]]; [|reflexivity].
    intros [H | H]; [|discriminate H].
    rewrite checkStatus_error in H. cbn in H.
    destruct (status =? 200)%Z; discriminate H.
Qed.

Lemma Command_revisions_agree_on_success_witness :
  Earlier.Command exampleSession ("200 result=1 (speech)" +:+ newline)
    ["GET"; "VARIABLE"; "RECOG_STATUS"]
  = Command exampleSession ("200 result=1 (speech)" +:+ newline)
      ["GET"; "VARIABLE"; "RECOG_STATUS"].
Proof.
  apply (Command_revisions_agree_on_success exampleSession
           ("200 result=1 (speech)" +:+ newline)
           ["GET"; "VARIABLE"; "RECOG_STATUS"]).
  left. reflexivity.
Defined.

(** X13. The earlier Command never reports a hangup: whatever the writer and
    the reader do, its error is not ErrHangup. *)
Theorem Earlier_Command_never_hangup (a : AGI) (rd : string)
    (cmd : list string) :
  Error (Earlier.Command a rd cmd) <> Some ErrHangup.
Proof.
  unfold Earlier.Command.
  destruct (w a (Join cmd " " +:+ newline)) as [err|]; [discriminate|].
  assert (Hzero : Error (checkStatus emptyResponse) <> Some ErrHangup)
    by discriminate.
  destruct (Scan rd) as [[[|c raw] rest]|]; [exact Hzero| |exact Hzero].
  unfold Earlier.parseResponse.
  destruct (FindStringSubmatch (String c raw)) as [[[p1 p2] p3]|];
    [|discriminate].
  destruct (Atoi p1) as [status [e|]]; [discriminate|].
  destruct (Atoi p2) as [result [e|]]; [discriminate|].
  rewrite checkStatus_error. cbn.
  destruct (status =? 200)%Z; discriminate.
Qed.

(** X14. A first line that begins with "HANGUP" is a parse failure carrying
    the line in the earlier Command, where the current one returns
    ErrHangup; neither sets another field. *)
Theorem Earlier_Command_hangup_line (a : AGI) (cmd : list string)
    (rd raw rest : string) :
  w a (Join cmd " " +:+ newline) = None ->
  Scan rd = Some (raw, rest) ->
  HasPrefix raw "HANGUP" = true ->
  Earlier.Command a rd cmd
  = withError (Some (Errorf ("failed to parse result: " +:+ raw))) emptyResponse
  /\ Command a rd cmd = withError (Some ErrHangup) emptyResponse.
Proof.
  intros Hw Hscan Hprefix.
  unfold Command, Earlier.Command. rewrite Hw, Hscan.
  destruct raw as [|c raw]; [discriminate Hprefix|].
  unfold parseResponse, Earlier.parseResponse.
  now rewrite Hprefix, (FindStringSubmatch_hangup _ Hprefix).
Qed.

Lemma Earlier_Command_hangup_line_witness :
  Earlier.Command exampleSession ("HANGUP 16" +:+ newline +:+ "200 result=1")
    ["STREAM"; "FILE"; "beep"]
  = withError (Some (Errorf "failed to parse result: HANGUP 16")) emptyResponse
  /\ Command exampleSession ("HANGUP 16" +:+ newline +:+ "200 result=1")
       ["STREAM"; "FILE"; "beep"]
     = withError (Some ErrHangup) emptyResponse.
Proof.
  apply (Earlier_Command_hangup_line exampleSession ["STREAM"; "FILE"; "beep"]
           ("HANGUP 16" +:+ newline +:+ "200 result=1") "HANGUP 16"
           "200 result=1"); reflexivity.
Defined.

Lemma splitLoop_absent (k : nat) (sep : ascii) (s : string) :
  strAll (fun c => negb (c =? sep)%char) s = true -> splitLoop k sep s = [s].
Proof.
  intros Hs. destruct k as [|k]; [reflexivity|].
  cbn [splitLoop]. now rewrite (cutAt_absent sep s Hs).
Qed.

Lemma Earlier_storeLine_colon (key value : string)
    (vars : gmap string string) :
  noColon key = true -> noColon value = true ->
  Earlier.storeLine (key +:+ ":" +:+ value) vars
  = <[TrimSpace key := TrimSpace value]> vars.
Proof.
  intros Hkey Hvalue. unfold Earlier.storeLine, Split.
  rewrite length_append. cbn [String.append String.length].
  replace (String.length key + S (String.length value))
    with (S (String.length key + String.length value)) by lia.
  cbn [splitLoop].
  change (key +:+ ":" +:+ value) with (key +:+ String ":" value).
  rewrite (cutAt_append ":" key value Hkey).
  now rewrite (splitLoop_absent _ ":" value Hvalue).
Qed.

Lemma Earlier_storeLine_no_colon (line : string) (vars : gmap string string) :
  noColon line = true -> Earlier.storeLine line vars = vars.
Proof.
  intros Hline. unfold Earlier.storeLine, Split.
  now rewrite (splitLoop_absent _ ":" line Hline).
Qed.

(** X15. The two preamble loops store the same thing for a line with no
    colon (nothing) and for a line with one colon (the trimmed halves).
    For a line with a further colon the earlier loop, which splits at every
    colon and wants two terms, stores nothing, while the current one, which
    splits at the first colon only, stores everything after it as the
    value. *)
Theorem storeLine_revisions_by_colons (key value more : string)
    (vars : gmap string string) :
  noColon key = true -> noColon value = true ->
  (Earlier.storeLine key vars = vars /\ storeLine key vars = vars)
  /\ (Earlier.storeLine (key +:+ ":" +:+ value) vars
      = <[TrimSpace key := TrimSpace value]> vars
      /\ storeLine (key +:+ ":" +:+ value) vars
         = <[TrimSpace key := TrimSpace value]> vars)
  /\ (Earlier.storeLine (key +:+ ":" +:+ value +:+ ":" +:+ more) vars = vars
      /\ storeLine (key +:+ ":" +:+ value +:+ ":" +:+ more) vars
         = <[TrimSpace key := TrimSpace (value +:+ ":" +:+ more)]> vars).
Proof.
  intros Hkey Hvalue. repeat split.
  - now apply Earlier_storeLine_no_colon.
  - now apply storeLine_no_colon.
  - now apply Earlier_storeLine_colon.
  - now apply storeLine_colon.
  - now apply Earlier_storeLine_second_colon.
  - now apply (storeLine_colon key (value +:+ ":" +:+ more)).
Qed.

Lemma storeLine_revisions_by_colons_witness :
  (Earlier.storeLine "agi_callerid" ∅ = ∅ /\ storeLine "agi_callerid" ∅ = ∅)
  /\ (Earlier.storeLine ("agi_callerid" +:+ ":" +:+ " sip") ∅
      = <[TrimSpace "agi_callerid" := TrimSpace " sip"]> ∅
      /\ storeLine ("agi_callerid" +:+ ":" +:+ " sip") ∅
         = <[TrimSpace "agi_callerid" := TrimSpace " sip"]> ∅)
  /\ (Earlier.storeLine
        ("agi_callerid" +:+ ":" +:+ " sip" +:+ ":" +:+ "100@pbx") ∅ = ∅
      /\ storeLine ("agi_callerid" +:+ ":" +:+ " sip" +:+ ":" +:+ "100@pbx") ∅
         = <[TrimSpace "agi_callerid"
             := TrimSpace (" sip" +:+ ":" +:+ "100@pbx")]> ∅).
Proof.
  apply (storeLine_revisions_by_colons "agi_callerid" " sip" "100@pbx" ∅);
    reflexivity.
Defined.

(** X16. When the result token of a response line is not an integer the
    earlier Command returns at once: it wraps the parse error under its own
    message and leaves Value empty, where the current Command goes on to
    read the value; status, result and result token are the same in both. *)
Theorem Earlier_Command_stops_at_result_token (a : AGI) (cmd : list string)
    (rd raw rest p1 p2 p3 : string) (n : Z) (e : error) :
  w a (Join cmd " " +:+ newline) = None ->
  Scan rd = Some (raw, rest) ->
  ResponseLine raw p1 p2 p3 ->
  Atoi p2 = (n, Some e) ->
  let earlier := Earlier.Command a rd cmd in
  let current := Command a rd cmd in
  earlier
  = {| Error := Some (Wrapped e "failed to parse status code as an integer");
       Status := fst (Atoi p1); Result := n;
       ResultString := p2; Value := EmptyString |}
  /\ Status current = Status earlier
  /\ Result current = Result earlier
  /\ ResultString current = ResultString earlier
  /\ Value current = valueOf p3.
Proof.
  intros Hw Hscan Hline Hres earlier current.
  split; [exact (Earlier_Command_result_not_integer a cmd rd raw rest p1 p2 p3
                   n e Hw Hscan Hline Hres)|].
  destruct (ResponseLine_not_hangup _ _ _ _ Hline) as [Hne Hno].
  unfold earlier, current, Command, Earlier.Command. rewrite Hw, Hscan.
  destruct raw as [|c raw]; [congruence|].
  unfold parseResponse, Earlier.parseResponse. rewrite Hno.
  apply FindStringSubmatch_iff in Hline as Hfind. rewrite Hfind.
  destruct Hline as (d1 & d2 & d3 & sp & _ & -> & H1 & H2 & H3 & _).
  rewrite (Atoi_three_digits d1 d2 d3 H1 H2 H3), Hres.
  match goal with
  | |- context [checkStatus ?r] =>
      destruct (checkStatus_fields r) as (-> & -> & -> & -> & _)
  end.
  repeat split.
Qed.

Lemma Earlier_Command_stops_at_result_token_witness :
  let earlier :=
    Earlier.Command exampleSession
      ("200 result=99999999999999999999 (timeout)" +:+ newline)
      ["WAIT"; "FOR"; "DIGIT"; "1000"] in
  let current :=
    Command exampleSession
      ("200 result=99999999999999999999 (timeout)" +:+ newline)
      ["WAIT"; "FOR"; "DIGIT"; "1000"] in
  earlier
  = {| Error := Some (Wrapped (NumError "Atoi" "99999999999999999999" ErrRange)
                        "failed to parse status code as an integer");
       Status := fst (Atoi "200"); Result := (2 ^ 63 - 1)%Z;
       ResultString := "99999999999999999999"; Value := EmptyString |}
  /\ Status current = Status earlier
  /\ Result current = Result earlier
  /\ ResultString current = ResultString earlier
  /\ Value current = valueOf " (timeout)".
Proof.
  apply (Earlier_Command_stops_at_result_token exampleSession
           ["WAIT"; "FOR"; "DIGIT"; "1000"]
           ("200 result=99999999999999999999 (timeout)" +:+ newline)
           "200 result=99999999999999999999 (timeout)" EmptyString "200"
           "99999999999999999999" " (timeout)" (2 ^ 63 - 1)%Z
           (NumError "Atoi" "99999999999999999999" ErrRange)).
  - reflexivity.
  - reflexivity.
  - apply FindStringSubmatch_iff. reflexivity.
  - vm_compute. reflexivity.
Defined.

(** ** Several commands in a row *)

(** The writer takes every "GET VARIABLE" line. *)
Definition takesGets (a : AGI) : Prop :=
  forall key : string, w a ("GET VARIABLE " +:+ key +:+ newline) = None.

(** The reader delivers, first, a line that begins with "HANGUP". *)
Definition hangsUp (rd : string) : Prop :=
  exists raw rest : string,
    Scan rd = Some (raw, rest) /\ HasPrefix raw "HANGUP" = true.

Lemma Join_get (key : string) :
  Join ["GET VARIABLE"; key] " " +:+ newline
  = "GET VARIABLE " +:+ key +:+ newline.
Proof. cbn [Join]. now rewrite append_assoc. Qed.

Lemma GetS_Get (a : AGI) (key rd : string) (rds : list string) :
  takesGets a -> GetS a key (rd :: rds) = (Get a rd key, rds).
Proof.
  intros Hw. unfold GetS, CommandS, Get. now rewrite Join_get, Hw.
Qed.

Lemma Get_answers (a : AGI) (key rd V : string) :
  takesGets a -> answers rd V -> Get a rd key = (V, None).
Proof.
  intros Hw Hrd.
  assert (Hw' : w a (Join ["GET VARIABLE"; key] " " +:+ newline) = None)
    by now rewrite Join_get.
  destruct (Command_answers a ["GET VARIABLE"; key] rd V Hw' Hrd)
    as (R & n & E).
  unfold Get. now rewrite E.
Qed.

Lemma Get_hangsUp (a : AGI) (key rd : string) :
  takesGets a -> hangsUp rd -> Get a rd key = (EmptyString, Some ErrHangup).
Proof.
  intros Hw (raw & rest & Hscan & Hprefix).
  unfold Get, Command. rewrite Join_get, Hw, Hscan.
  destruct raw as [|c raw]; [discriminate Hprefix|].
  unfold parseResponse. now rewrite Hprefix.
Qed.

(** X17. When the three variables are answered in turn and the completion
    cause is an integer, getRecognitionResult returns the three values with
    no error and consumes exactly three responses, whichever status
    variable it asked for. *)
Theorem getRecognitionResult_success (a : AGI) (combo : bool)
    (r1 r2 r3 S C R : string) (n : Z) (more : list string) :
  takesGets a ->
  answers r1 S -> answers r2 C -> answers r3 R ->
  Atoi C = (n, None) ->
  getRecognitionResult a combo (r1 :: r2 :: r3 :: more)
  = (({| RecogStatus := S; RecogCause := n; RecogResult := R |}, None), more).
Proof.
  intros Hw H1 H2 H3 Hn. unfold getRecognitionResult.
  rewrite (GetS_Get a _ r1 _ Hw), (Get_answers a _ r1 S Hw H1).
  rewrite (GetS_Get a _ r2 _ Hw), (Get_answers a _ r2 C Hw H2), Hn.
  now rewrite (GetS_Get a _ r3 _ Hw), (Get_answers a _ r3 R Hw H3).
Qed.

Lemma getRecognitionResult_success_witness :
  getRecognitionResult exampleSession true
    [ "200 result=1 (OK)" +:+ newline;
      "200 result=1 (000)" +:+ newline;
      "200 result=1 (<result/>)" +:+ newline;
      "200 result=0" +:+ newline ]
  = (({| RecogStatus := "OK"; RecogCause := 0; RecogResult := "<result/>" |},
      None),
     [ "200 result=0" +:+ newline ]).
Proof.
  apply (getRecognitionResult_success exampleSession true
           ("200 result=1 (OK)" +:+ newline)
           ("200 result=1 (000)" +:+ newline)
           ("200 result=1 (<result/>)" +:+ newline)
           "OK" "000" "<result/>" 0%Z [ "200 result=0" +:+ newline ]).
  - intros key. reflexivity.
  - exists EmptyString, "1", 1%Z. repeat split.
  - exists EmptyString, "1", 1%Z. repeat split.
  - exists EmptyString, "1", 1%Z. repeat split.
  - reflexivity.
Defined.

(** X18. A completion cause that is not an integer ends getRecognitionResult
    before the result is asked for: the error wraps the parse error under a
    message that quotes the cause, the result is empty, the cause is what
    the parse returned, and the next response is left unread. *)
Theorem getRecognitionResult_cause_not_integer (a : AGI) (combo : bool)
    (r1 r2 S C : string) (n : Z) (e : error) (more : list string) :
  takesGets a ->
  answers r1 S -> answers r2 C ->
  Atoi C = (n, Some e) ->
  getRecognitionResult a combo (r1 :: r2 :: more)
  = (({| RecogStatus := S; RecogCause := n; RecogResult := EmptyString |},
      Some (Wrapped e
              ("failed to parse cause (" +:+ C +:+ ") as an integer"))),
     more).
Proof.
  intros Hw H1 H2 Hn. unfold getRecognitionResult.
  rewrite (GetS_Get a _ r1 _ Hw), (Get_answers a _ r1 S Hw H1).
  now rewrite (GetS_Get a _ r2 _ Hw), (Get_answers a _ r2 C Hw H2), Hn.
Qed.

Lemma getRecognitionResult_cause_not_integer_witness :
  getRecognitionResult exampleSession false
    [ "200 result=1 (ERROR)" +:+ newline;
      "200 result=1 ()" +:+ newline;
      "200 result=1 (late)" +:+ newline ]
  = (({| RecogStatus := "ERROR"; RecogCause := 0;
         RecogResult := EmptyString |},
      Some (Wrapped (NumError "Atoi" EmptyString ErrSyntax)
              ("failed to parse cause (" +:+ EmptyString
               +:+ ") as an integer"))),
     [ "200 result=1 (late)" +:+ newline ]).
Proof.
  apply (getRecognitionResult_cause_not_integer exampleSession false
           ("200 result=1 (ERROR)" +:+ newline)
           ("200 result=1 ()" +:+ newline)
           "ERROR" EmptyString 0%Z (NumError "Atoi" EmptyString ErrSyntax)
           [ "200 result=1 (late)" +:+ newline ]).
  - intros key. reflexivity.
  - exists EmptyString, "1", 1%Z. repeat split.
  - exists EmptyString, "1", 1%Z. repeat split.
  - reflexivity.
Defined.

(** X19. A hangup met by any of the three reads of getRecognitionResult
    comes back wrapped under the message of that read, never as ErrHangup
    itself; the fields read before it are kept, the later ones are zero,
    and the responses after the hangup line are left unread. *)
Theorem getRecognitionResult_hangup (a : AGI) (combo : bool)
    (r1 r2 gone S C : string) (n : Z) (more : list string) :
  takesGets a ->
  hangsUp gone ->
  answers r1 S -> answers r2 C -> Atoi C = (n, None) ->
  getRecognitionResult a combo (gone :: more)
  = (({| RecogStatus := EmptyString; RecogCause := 0;
         RecogResult := EmptyString |},
      Some (Wrapped ErrHangup "failed to retrieve status")), more)
  /\ getRecognitionResult a combo (r1 :: gone :: more)
     = (({| RecogStatus := S; RecogCause := 0; RecogResult := EmptyString |},
         Some (Wrapped ErrHangup "failed to retrieve cause")), more)
  /\ getRecognitionResult a combo (r1 :: r2 :: gone :: more)
     = (({| RecogStatus := S; RecogCause := n; RecogResult := EmptyString |},
         Some (Wrapped ErrHangup "failed to retrieve result")), more).
Proof.
  intros Hw Hgone H1 H2 Hn. unfold getRecognitionResult. repeat split.
  - now rewrite (GetS_Get a _ gone _ Hw), (Get_hangsUp a _ gone Hw Hgone).
  - rewrite (GetS_Get a _ r1 _ Hw), (Get_answers a _ r1 S Hw H1).
    now rewrite (GetS_Get a _ gone _ Hw), (Get_hangsUp a _ gone Hw Hgone).
  - rewrite (GetS_Get a _ r1 _ Hw), (Get_answers a _ r1 S Hw H1).
    rewrite (GetS_Get a _ r2 _ Hw), (Get_answers a _ r2 C Hw H2), Hn.
    now rewrite (GetS_Get a _ gone _ Hw), (Get_hangsUp a _ gone Hw Hgone).
Qed.

Lemma getRecognitionResult_hangup_witness :
  let r1 := "200 result=1 (OK)" +:+ newline in
  let r2 := "200 result=1 (001)" +:+ newline in
  let gone := "HANGUP" +:+ newline in
  let more := [ "200 result=1 (late)" +:+ newline ] in
  getRecognitionResult exampleSession true (gone :: more)
  = (({| RecogStatus := EmptyString; RecogCause := 0;
         RecogResult := EmptyString |},
      Some (Wrapped ErrHangup "failed to retrieve status")), more)
  /\ getRecognitionResult exampleSession true (r1 :: gone :: more)
     = (({| RecogStatus := "OK"; RecogCause := 0;
            RecogResult := EmptyString |},
         Some (Wrapped ErrHangup "failed to retrieve cause")), more)
  /\ getRecognitionResult exampleSession true (r1 :: r2 :: gone :: more)
     = (({| RecogStatus := "OK"; RecogCause := 1;
            RecogResult := EmptyString |},
         Some (Wrapped ErrHangup "failed to retrieve result")), more).
Proof.
  apply (getRecognitionResult_hangup exampleSession true
           ("200 result=1 (OK)" +:+ newline)
           ("200 result=1 (001)" +:+ newline)
           ("HANGUP" +:+ newline) "OK" "001" 1%Z
           [ "200 result=1 (late)" +:+ newline ]).
  - intros key. reflexivity.
  - exists "HANGUP", EmptyString. split; reflexivity.
  - exists EmptyString, "1", 1%Z. repeat split.
  - exists EmptyString, "1", 1%Z. repeat split.
  - reflexivity.
Defined.

(** X20. When input, confidence and grammar of an interpretation are
    answered in turn and the confidence is an integer,
    RecognitionInterpretation returns the three with no error and consumes
    exactly three responses; the confidence alone is the integer of the
    second answer. *)
Theorem RecognitionInterpretation_success (a : AGI) (index : Z)
    (r1 r2 r3 I C G : string) (n : Z) (more : list string) :
  takesGets a ->
  answers r1 I -> answers r2 C -> answers r3 G ->
  Atoi C = (n, None) ->
  RecognitionInterpretationOf a index (r1 :: r2 :: r3 :: more)
  = (({| Confidence := n; Input := I; Grammar := G |}, None), more)
  /\ RecognitionConfidence a index (r2 :: more) = ((n, None), more).
Proof.
  intros Hw H1 H2 H3 Hn.
  assert (Hc : forall rds : list string,
             RecognitionConfidence a index (r2 :: rds) = ((n, None), rds)).
  { intros rds. unfold RecognitionConfidence.
    now rewrite (GetS_Get a _ r2 _ Hw), (Get_answers a _ r2 C Hw H2), Hn. }
  split; [|apply Hc].
  unfold RecognitionInterpretationOf, RecognitionInput, RecognitionGrammar.
  rewrite (GetS_Get a _ r1 _ Hw), (Get_answers a _ r1 I Hw H1), Hc.
  now rewrite (GetS_Get a _ r3 _ Hw), (Get_answers a _ r3 G Hw H3).
Qed.

Lemma RecognitionInterpretation_success_witness :
  let r1 := "200 result=1 (one)" +:+ newline in
  let r2 := "200 result=1 (87)" +:+ newline in
  let r3 := "200 result=1 (builtin:grammar/digits)" +:+ newline in
  RecognitionInterpretationOf exampleSession 0 [r1; r2; r3]
  = (({| Confidence := 87; Input := "one";
         Grammar := "builtin:grammar/digits" |}, None), [])
  /\ RecognitionConfidence exampleSession 0 [r2] = ((87%Z, None), []).
Proof.
  apply (RecognitionInterpretation_success exampleSession 0
           ("200 result=1 (one)" +:+ newline)
           ("200 result=1 (87)" +:+ newline)
           ("200 result=1 (builtin:grammar/digits)" +:+ newline)
           "one" "87" "builtin:grammar/digits" 87%Z []).
  - intros key. reflexivity.
  - exists EmptyString, "1", 1%Z. repeat split.
  - exists EmptyString, "1", 1%Z. repeat split.
  - exists EmptyString, "1", 1%Z. repeat split.
  - reflexivity.
Defined.

(** X21. RecognitionInterpretation hands a failure on as it is, unwrapped,
    and stops there: a hangup at the first or second read comes back as
    ErrHangup itself, a confidence that is not an integer as the parse
    error with the number the parse returned; the grammar is then not asked
    for and the responses after the failing one are left unread. *)
Theorem RecognitionInterpretation_failure (a : AGI) (index : Z)
    (r1 r2 gone I C : string) (n : Z) (e : error) (more : list string) :
  takesGets a ->
  hangsUp gone ->
  answers r1 I -> answers r2 C -> Atoi C = (n, Some e) ->
  RecognitionInterpretationOf a index (gone :: more)
  = (({| Confidence := 0; Input := EmptyString; Grammar := EmptyString |},
      Some ErrHangup), more)
  /\ RecognitionInterpretationOf a index (r1 :: gone :: more)
     = (({| Confidence := 0; Input := I; Grammar := EmptyString |},
         Some ErrHangup), more)
  /\ RecognitionInterpretationOf a index (r1 :: r2 :: more)
     = (({| Confidence := n; Input := I; Grammar := EmptyString |}, Some e),
        more).
Proof.
  intros Hw Hgone H1 H2 Hn.
  unfold RecognitionInterpretationOf, RecognitionInput, RecognitionConfidence.
  repeat split.
  - now rewrite (GetS_Get a _ gone _ Hw), (Get_hangsUp a _ gone Hw Hgone).
  - rewrite (GetS_Get a _ r1 _ Hw), (Get_answers a _ r1 I Hw H1).
    now rewrite (GetS_Get a _ gone _ Hw), (Get_hangsUp a _ gone Hw Hgone).
  - rewrite (GetS_Get a _ r1 _ Hw), (Get_answers a _ r1 I Hw H1).
    now rewrite (GetS_Get a _ r2 _ Hw), (Get_answers a _ r2 C Hw H2), Hn.
Qed.

Lemma RecognitionInterpretation_failure_witness :
  let r1 := "200 result=1 (one)" +:+ newline in
  let r2 := "200 result=1 (0.87)" +:+ newline in
  let gone := "HANGUP" +:+ newline in
  let more := [ "200 result=1 (late)" +:+ newline ] in
  RecognitionInterpretationOf exampleSession 1 (gone :: more)
  = (({| Confidence := 0; Input := EmptyString; Grammar := EmptyString |},
      Some ErrHangup), more)
  /\ RecognitionInterpretationOf exampleSession 1 (r1 :: gone :: more)
     = (({| Confidence := 0; Input := "one"; Grammar := EmptyString |},
         Some ErrHangup), more)
  /\ RecognitionInterpretationOf exampleSession 1 (r1 :: r2 :: more)
     = (({| Confidence := 0; Input := "one"; Grammar := EmptyString |},
         Some (NumError "Atoi" "0.87" ErrSyntax)), more).
Proof.
  apply (RecognitionInterpretation_failure exampleSession 1
           ("200 result=1 (one)" +:+ newline)
           ("200 result=1 (0.87)" +:+ newline)
           ("HANGUP" +:+ newline) "one" "0.87" 0%Z
           (NumError "Atoi" "0.87" ErrSyntax)
           [ "200 result=1 (late)" +:+ newline ]).
  - intros key. reflexivity.
  - exists "HANGUP", EmptyString. split; reflexivity.
  - exists EmptyString, "1", 1%Z. repeat split.
  - exists EmptyString, "1", 1%Z. repeat split.
  - reflexivity.
Defined.

(** ** A result code beyond the runes *)

Lemma rune_wraps (c k : Z) :
  (- 2 ^ 31 <= c < 2 ^ 31)%Z -> rune (c + k * 2 ^ 32) = c.
Proof.
  intros Hc. unfold rune.
  replace (c + k * 2 ^ 32 + 2 ^ 31)%Z with (c + 2 ^ 31 + k * 2 ^ 32)%Z by lia.
  rewrite Z.mod_add by lia. rewrite Z.mod_small by lia. lia.
Qed.

(** X22. WaitForDigit tests the result code for printability after cutting
    it to 32 bits but converts the whole code: a 200 response whose result
    is a printable ASCII code plus a non-zero multiple of 2^32 gives the
    three bytes of U+FFFD, not the character, and no error. *)
Theorem WaitForDigit_result_beyond_rune (toMSec : Z -> string)
    (isPrintWide : Z -> bool) (a : AGI) (rd raw rest p2 p3 : string)
    (timeout n c k : Z) :
  w a (Join ["WAIT FOR DIGIT"; toMSec timeout] " " +:+ newline) = None ->
  Scan rd = Some (raw, rest) ->
  ResponseLine raw "200" p2 p3 ->
  Atoi p2 = (n, None) ->
  (32 <= c <= 126)%Z -> k <> 0%Z -> n = (c + k * 2 ^ 32)%Z ->
  WaitForDigit toMSec isPrintWide a rd timeout
  = (String (byteOf 239) (String (byteOf 191) (String (byteOf 189) EmptyString)),
     None).
Proof.
  intros Hw Hscan Hline Hn Hc Hk E. unfold WaitForDigit.
  rewrite (Command_ok_line a _ rd raw rest p2 p3 n Hw Hscan Hline Hn).
  cbn [withResultString Error Result ResultString Status Value].
  rewrite E, rune_wraps by lia. unfold IsPrint, stringOfInt.
  assert (Hout : (c + k * 2 ^ 32 < 0 \/ 1114111 < c + k * 2 ^ 32)%Z) by lia.
  destruct (Z.leb_spec c 255); [|lia].
  destruct (Z.leb_spec 32 c); [|lia].
  destruct (Z.leb_spec c 126); [|lia].
  cbn [andb].
  destruct (Z.ltb_spec (c + k * 2 ^ 32) 0); [reflexivity|].
  destruct (Z.ltb_spec 1114111 (c + k * 2 ^ 32)); [reflexivity|lia].
Qed.

Lemma WaitForDigit_result_beyond_rune_witness :
  WaitForDigit (fun _ => "5000") (fun _ => false) exampleSession
    ("200 result=4294967349" +:+ newline) 5000000000
  = (String (byteOf 239) (String (byteOf 191) (String (byteOf 189) EmptyString)),
     None).
Proof.
  apply (WaitForDigit_result_beyond_rune (fun _ => "5000") (fun _ => false)
           exampleSession ("200 result=4294967349" +:+ newline)
           "200 result=4294967349" EmptyString "4294967349" EmptyString
           5000000000 4294967349%Z 53%Z 1%Z).
  - reflexivity.
  - reflexivity.
  - apply FindStringSubmatch_iff. reflexivity.
  - vm_compute. reflexivity.
  - lia.
  - lia.
  - reflexivity.
Defined.

(** ** Hangup and write failure across the operations *)

Lemma Command_hangsUp (a : AGI) (rd : string) (cmd : list string) :
  w a (Join cmd " " +:+ newline) = None -> hangsUp rd ->
  Command a rd cmd = withError (Some ErrHangup) emptyResponse.
Proof.
  intros Hw (raw & rest & Hscan & Hprefix).
  unfold Command. rewrite Hw, Hscan.
  destruct raw as [|c raw]; [discriminate Hprefix|].
  unfold parseResponse. now rewrite Hprefix.
Qed.

(** X23. Every operation that sends one command hands a hangup on as
    ErrHangup itself, beside the zero value of its result: no operation
    wraps it, Status does not turn it into its parse failure, and
    WaitForDigit and GetData return no digit. *)
Theorem operations_pass_hangup (toMSec : Z -> string)
    (isPrintWide : Z -> bool) (a : AGI) (rd : string) :
  (forall line : string, w a line = None) ->
  hangsUp rd ->
  Answer a rd = Some ErrHangup
  /\ Hangup a rd = Some ErrHangup
  /\ ChannelStatus a rd = (StateDown, Some ErrHangup)
  /\ (forall cmd : list string, Exec a rd cmd = (EmptyString, Some ErrHangup))
  /\ (forall key : string, Get a rd key = (EmptyString, Some ErrHangup))
  /\ (forall key val : string, SetVariable a rd key val = Some ErrHangup)
  /\ (forall (sound : string) (timeout maxdigits : Z),
        GetData toMSec a rd sound timeout maxdigits
        = (EmptyString, Some ErrHangup))
  /\ (forall (name escapeDigits : string) (offset : Z),
        StreamFile a rd name escapeDigits offset
        = (EmptyString, Some ErrHangup))
  /\ (forall timeout : Z,
        WaitForDigit toMSec isPrintWide a rd timeout
        = (EmptyString, Some ErrHangup)).
Proof.
  intros Hw Hrd.
  assert (E : forall cmd : list string,
             Command a rd cmd = withError (Some ErrHangup) emptyResponse)
    by (intros cmd; apply Command_hangsUp; [apply Hw|exact Hrd]).
  unfold Answer, Hangup, ChannelStatus, Exec, Get, SetVariable, GetData,
    StreamFile, WaitForDigit.
  repeat split; intros; now rewrite E.
Qed.

Lemma operations_pass_hangup_witness :
  let rd := "HANGUP" +:+ newline in
  let toMSec := fun _ : Z => "5000" in
  let isPrintWide := fun _ : Z => false in
  Answer exampleSession rd = Some ErrHangup
  /\ Hangup exampleSession rd = Some ErrHangup
  /\ ChannelStatus exampleSession rd = (StateDown, Some ErrHangup)
  /\ (forall cmd : list string,
        Exec exampleSession rd cmd = (EmptyString, Some ErrHangup))
  /\ (forall key : string,
        Get exampleSession rd key = (EmptyString, Some ErrHangup))
  /\ (forall key val : string,
        SetVariable exampleSession rd key val = Some ErrHangup)
  /\ (forall (sound : string) (timeout maxdigits : Z),
        GetData toMSec exampleSession rd sound timeout maxdigits
        = (EmptyString, Some ErrHangup))
  /\ (forall (name escapeDigits : string) (offset : Z),
        StreamFile exampleSession rd name escapeDigits offset
        = (EmptyString, Some ErrHangup))
  /\ (forall timeout : Z,
        WaitForDigit toMSec isPrintWide exampleSession rd timeout
        = (EmptyString, Some ErrHangup)).
Proof.
  apply (operations_pass_hangup (fun _ : Z => "5000") (fun _ : Z => false)
           exampleSession ("HANGUP" +:+ newline)).
  - intros line. reflexivity.
  - exists "HANGUP", EmptyString. split; reflexivity.
Defined.

(** X24. When the writer refuses the first command of getRecognitionResult
    no response is read: the responses come back as they were given, the
    result is zero, and the error is the write error wrapped twice, by
    Command and by the failed read of the status. *)
Theorem getRecognitionResult_write_failure (a : AGI) (combo : bool)
    (e : error) (rds : list string) :
  w a ("GET VARIABLE " +:+ (if combo then "RECOG_STATUS" else "RECOGSTATUS")
       +:+ newline) = Some e ->
  getRecognitionResult a combo rds
  = (({| RecogStatus := EmptyString; RecogCause := 0;
         RecogResult := EmptyString |},
      Some (Wrapped (Wrapped e "failed to send command")
              "failed to retrieve status")), rds).
Proof.
  intros Hw. unfold getRecognitionResult, GetS, CommandS.
  rewrite Join_get, Hw.
  rewrite (Command_write_failure a EmptyString _ e)
    by now rewrite Join_get.
  reflexivity.
Qed.

Lemma getRecognitionResult_write_failure_witness :
  let a := New EmptyString (fun _ => Some (IOError "broken pipe")) in
  let rds := [ "200 result=1 (OK)" +:+ newline; "HANGUP" +:+ newline ] in
  getRecognitionResult a false rds
  = (({| RecogStatus := EmptyString; RecogCause := 0;
         RecogResult := EmptyString |},
      Some (Wrapped (Wrapped (IOError "broken pipe") "failed to send command")
              "failed to retrieve status")), rds).
Proof.
  apply (getRecognitionResult_write_failure
           (New EmptyString (fun _ => Some (IOError "broken pipe"))) false
           (IOError "broken pipe")
           [ "200 result=1 (OK)" +:+ newline; "HANGUP" +:+ newline ]).
  reflexivity.
Defined.

(** ** What of the input a command looks at *)

Lemma dropCR_CR (s : string) :
  dropCR s = s -> dropCR (s +:+ String "013" EmptyString) = s.
Proof.
  induction s as [|c s IH]; intros Hs; [reflexivity|].
  destruct s as [|d s].
  - cbn in Hs |- *. destruct (c =? "013")%char; [discriminate Hs|reflexivity].
  - change (dropCR (String c (String d s)))
      with (String c (dropCR (String d s))) in Hs.
    injection Hs as Hs.
    change (String c (String d s) +:+ String "013" EmptyString)
      with (String c (String d (s +:+ String "013" EmptyString))).
    change (dropCR (String c (String d (s +:+ String "013" EmptyString))))
      with (String c (dropCR (String d s +:+ String "013" EmptyString))).
    now rewrite (IH Hs).
Qed.

Lemma Scan_unterminated (line : string) :
  line <> EmptyString ->
  strAll isDot line = true ->
  (N.of_nat (String.length line) < MaxScanTokenSize)%N ->
  Scan line = Some (dropCR line, EmptyString).
Proof.
  intros Hne Hdot Hlen. unfold Scan.
  destruct line as [|c line]; [congruence|].
  rewrite (cutAt_absent "010" _ Hdot).
  apply N.ltb_lt in Hlen. now rewrite Hlen.
Qed.

Lemma Command_of_text (a : AGI) (cmd : list string) (rd rd' text rest rest' : string) :
  Scan rd = Some (text, rest) -> Scan rd' = Some (text, rest') ->
  Command a rd cmd = Command a rd' cmd.
Proof.
  intros H H'. unfold Command. rewrite H, H'.
  destruct (w a (Join cmd " " +:+ newline)); [reflexivity|].
  now destruct text.
Qed.

(** X25. Command looks at the first line of what the reader delivers and at
    nothing else: what follows that line does not change the response; a
    carriage return before the newline is dropped; and a last line that
    the peer never terminated is read as if it had been. *)
Theorem Command_first_line_only (a : AGI) (cmd : list string)
    (line : string) :
  strAll isDot line = true ->
  (N.of_nat (String.length line) + 1 < MaxScanTokenSize)%N ->
  dropCR line = line ->
  (forall rest rest' : string,
     Command a (line +:+ newline +:+ rest) cmd
     = Command a (line +:+ newline +:+ rest') cmd)
  /\ (forall rest : string,
        Command a (line +:+ String "013" newline +:+ rest) cmd
        = Command a (line +:+ newline +:+ rest) cmd)
  /\ (forall rest : string,
        Command a line cmd = Command a (line +:+ newline +:+ rest) cmd).
Proof.
  intros Hdot Hlen Hcr.
  assert (Hlen' : (N.of_nat (String.length line) < MaxScanTokenSize)%N) by lia.
  assert (Hscan : forall rest : string,
             Scan (line +:+ newline +:+ rest) = Some (line, rest)).
  { intros rest. rewrite (Scan_terminated line rest Hdot Hlen'). now rewrite Hcr. }
  repeat split.
  - intros rest rest'.
    exact (Command_of_text a cmd _ _ line rest rest' (Hscan rest) (Hscan rest')).
  - intros rest.
    apply (Command_of_text a cmd _ _ line rest rest); [|apply Hscan].
    replace (line +:+ String "013" newline +:+ rest)
      with ((line +:+ String "013" EmptyString) +:+ newline +:+ rest)
      by now rewrite append_assoc.
    rewrite Scan_terminated.
    + now rewrite (dropCR_CR line Hcr).
    + rewrite strAll_append, Hdot. reflexivity.
    + rewrite length_append. cbn [String.length]. lia.
  - intros rest. destruct line as [|c l].
    + unfold Command. rewrite (Hscan rest). reflexivity.
    + apply (Command_of_text a cmd _ _ (String c l) EmptyString rest);
        [|apply Hscan].
      rewrite Scan_unterminated; [now rewrite Hcr|discriminate|exact Hdot|exact Hlen'].
Qed.

Lemma Command_first_line_only_witness :
  let line := "200 result=1 (speech)" in
  (forall rest rest' : string,
     Command exampleSession (line +:+ newline +:+ rest) ["GET DATA"; "beep"]
     = Command exampleSession (line +:+ newline +:+ rest')
         ["GET DATA"; "beep"])
  /\ (forall rest : string,
        Command exampleSession (line +:+ String "013" newline +:+ rest)
          ["GET DATA"; "beep"]
        = Command exampleSession (line +:+ newline +:+ rest)
            ["GET DATA"; "beep"])
  /\ (forall rest : string,
        Command exampleSession line ["GET DATA"; "beep"]
        = Command exampleSession (line +:+ newline +:+ rest)
            ["GET DATA"; "beep"]).
Proof.
  apply (Command_first_line_only exampleSession ["GET DATA"; "beep"]
           "200 result=1 (speech)"); reflexivity.
Defined.

(** ** A line that outgrows the scanner *)

Lemma Scan_too_long (line rest : string) :
  strAll isDot line = true ->
  (MaxScanTokenSize <= N.of_nat (String.length line))%N ->
  Scan (line +:+ newline +:+ rest) = None.
Proof.
  intros Hdot Hlen.
  change (line +:+ newline +:+ rest) with (line +:+ String "010" rest).
  unfold Scan. rewrite (cutAt_append "010" line rest Hdot).
  apply N.ltb_ge in Hlen. rewrite Hlen.
  now destruct (line +:+ String "010" rest).
Qed.

(** [n] bytes "x". *)
Definition filler (n : N) : string :=
  string_of_list_ascii (repeat "x"%char (N.to_nat n)).

(** X26. A first line of 65536 bytes or more is never seen: the scanner
    gives up on it, so Command returns the non-200 error over a zero
    response whatever the line says, and NewWithEAGI reads no variable,
    also from the lines that follow. *)
Theorem line_too_long (a : AGI) (cmd : list string) (line rest : string)
    (wr : Writer) (ea : option string) :
  w a (Join cmd " " +:+ newline) = None ->
  strAll isDot line = true ->
  (MaxScanTokenSize <= N.of_nat (String.length line))%N ->
  Command a (line +:+ newline +:+ rest) cmd
  = {| Error := Some (Errorf "Non-200 status code");
       Status := 0; Result := 0;
       ResultString := EmptyString; Value := EmptyString |}
  /\ Variables (NewWithEAGI (line +:+ newline +:+ rest) wr ea) = ∅.
Proof.
  intros Hw Hdot Hlen. split.
  - unfold Command. now rewrite Hw, (Scan_too_long line rest Hdot Hlen).
  - unfold NewWithEAGI. cbn [Variables].
    now rewrite scanVariables_step, (Scan_too_long line rest Hdot Hlen).
Qed.

Lemma line_too_long_witness :
  let line := "200 result=1 (" +:+ filler 65536 +:+ ")" in
  let rest := "agi_channel: SIP/100-0000002a" +:+ newline +:+ newline in
  Command exampleSession (line +:+ newline +:+ rest) ["GET DATA"; "beep"]
  = {| Error := Some (Errorf "Non-200 status code");
       Status := 0; Result := 0;
       ResultString := EmptyString; Value := EmptyString |}
  /\ Variables (NewWithEAGI (line +:+ newline +:+ rest) (fun _ => None) None)
     = ∅.
Proof.
  apply (line_too_long exampleSession ["GET DATA"; "beep"]
           ("200 result=1 (" +:+ filler 65536 +:+ ")")
           ("agi_channel: SIP/100-0000002a" +:+ newline +:+ newline)
           (fun _ => None) None).
  - reflexivity.
  - vm_compute. reflexivity.
  - vm_compute. discriminate.
Defined.
